(** * OrbitCamera: a shallow embedding of [src/utils/OrbitCamera.ts]

    The orbit-camera controller keeps a target point, a distance and two
    angles, reacts to mouse, wheel and touch events, and after every change
    places the engine's camera entity on a sphere around the target.

    JavaScript numbers are IEEE 754 binary64 values, so the embedding uses
    Rocq's primitive floats: every arithmetic expression of the source is
    written with the same operators, in the same order, and evaluates. *)

From Stdlib Require Import ZArith List Bool Floats Lia.
From Stdlib Require String Ascii.
Import ListNotations.

Local Open Scope float_scope.

(** ** JavaScript numbers and the built-ins the controller calls *)

Module JS.

Definition number := float.

(** [a ?? d] on an optional property: [undefined] is [None]. *)
Definition nullish {A : Type} (a : option A) (d : A) : A :=
  match a with
  | Some v => v
  | None => d
  end.

(** The global [isFinite] on a number: neither NaN nor an infinity. *)
Definition isFinite (v : number) : bool := is_finite v.

(** [Math.max(a, b)]: NaN if either argument is NaN, otherwise the larger
    one, [+0] counting as larger than [-0]. *)
Definition Math_max (a b : number) : number :=
  if is_nan a || is_nan b then nan
  else if a <? b then b
  else if b <? a then a
  else if get_sign a then b else a.

(** [Math.min(a, b)]: NaN if either argument is NaN, otherwise the smaller
    one, [-0] counting as smaller than [+0]. *)
Definition Math_min (a b : number) : number :=
  if is_nan a || is_nan b then nan
  else if a <? b then a
  else if b <? a then b
  else if get_sign a then a else b.

Definition Math_sqrt (v : number) : number := sqrt v.

(** [Math.PI], the binary64 value nearest to pi. *)
Definition Math_PI : number := 0x1.921fb54442d18p+1.

(** SameValueZero of ECMAScript: equal as numbers, the two zeros being
    the same value and NaN being the same value as itself. *)
Definition SameValueZero (a b : number) : bool :=
  (a =? b) || (is_nan a && is_nan b).

End JS.
Export JS.

(** Decimal literals such as [0.3] are rounded to the nearest binary64
    value, exactly as JavaScript reads them. *)
Set Warnings "-inexact-float".

(** ** The engine's value types *)

Module pc.

(** [pc.Vec3]: three numbers. *)
Record Vec3 : Type := mkVec3 { x : number; y : number; z : number }.

(** Modelled from the spec: [pc.math.DEG_TO_RAD], the engine's factor that
    converts degrees to radians, [Math.PI / 180]; the engine is an
    external collaborator and its sources are not in the repository. *)
Definition DEG_TO_RAD : number := Math_PI / 180.

End pc.

(** ** What the controller needs from its environment

    [Math.sin] and [Math.cos] are implementation-approximated in ECMAScript,
    and [Vec3.normalize] and the rotation that [Entity.lookAt] installs
    belong to the rendering engine.  The controller is parametric in them. *)

Class Host : Type := {
  Math_sin : number -> number;
  Math_cos : number -> number;
  normalize : pc.Vec3 -> pc.Vec3;
  Rotation : Type;
  (** the rotation of an entity at [eye] after [lookAt(target, up)] *)
  lookAtRotation : forall (eye target up : pc.Vec3), Rotation
}.

(** A host to run the model with: polynomial sine and cosine (both exact at
    [+0], as ECMAScript requires), the engine's usual normalisation, and a
    rotation that just records the three vectors it was computed from. *)
Module SampleHost.

Definition sin (a : number) : number :=
  let a2 := a * a in
  a - a * a2 / 6 + a * a2 * a2 / 120 - a * a2 * a2 * a2 / 5040.

Definition cos (a : number) : number :=
  let a2 := a * a in
  1 - a2 / 2 + a2 * a2 / 24 - a2 * a2 * a2 / 720.

Definition Vec3_normalize (v : pc.Vec3) : pc.Vec3 :=
  let lengthSq := pc.x v * pc.x v + pc.y v * pc.y v + pc.z v * pc.z v in
  if 0 <? lengthSq then
    let invLength := 1 / Math_sqrt lengthSq in
    pc.mkVec3 (pc.x v * invLength) (pc.y v * invLength) (pc.z v * invLength)
  else v.

Definition host : Host := {|
  Math_sin := sin;
  Math_cos := cos;
  normalize := Vec3_normalize;
  Rotation := pc.Vec3 * pc.Vec3 * pc.Vec3;
  lookAtRotation := fun eye target up => (eye, target, up)
|}.

End SampleHost.

(** ** Input events *)

Module MouseEvent.
Record t : Type := mk {
  button : Z;
  shiftKey : bool;
  clientX : number;
  clientY : number
}.
End MouseEvent.

Module WheelEvent.
Record t : Type := mk { deltaY : number }.
End WheelEvent.

Module Touch.
Record t : Type := mk { clientX : number; clientY : number }.
End Touch.

Module TouchEvent.
Record t : Type := mk { touches : list Touch.t }.
End TouchEvent.

(** ** Constructor options: every property may be absent *)

Module OrbitCameraOptions.
Record t : Type := mk {
  distance : option number;
  pitch : option number;
  yaw : option number;
  mouseSpeed : option number;
  wheelSpeed : option number;
  panSpeed : option number;
  minDistance : option number;
  maxDistance : option number;
  minPitch : option number;
  maxPitch : option number
}.

(** The default argument [{}]. *)
Definition empty : t :=
  mk None None None None None None None None None None.
End OrbitCameraOptions.

(** ** The controller *)

Section Controller.

Context {host : Host}.

(** The camera entity, as far as the controller drives it: a position and
    a rotation.  [setPosition] overwrites the first, [lookAt] the second. *)
Record Entity : Type := mkEntity {
  position : pc.Vec3;
  rotation : Rotation
}.

Definition setPosition (e : Entity) (x y z : number) : Entity :=
  {| position := pc.mkVec3 x y z; rotation := rotation e |}.

Definition lookAt (e : Entity) (target up : pc.Vec3) : Entity :=
  {| position := position e;
     rotation := lookAtRotation (position e) target up |}.

(** The fields of [class OrbitCamera].  [app] only gives access to the
    canvas the listeners are attached to and is left out;
    [lastTouchDistance] is the variable that the touch listeners close
    over ([null] is [None]). *)
Record OrbitCamera : Type := mkOrbitCamera {
  camera : Entity;
  target : pc.Vec3;
  distance : number;
  pitch : number;
  yaw : number;
  mouseSpeed : number;
  wheelSpeed : number;
  panSpeed : number;
  minDistance : number;
  maxDistance : number;
  minPitch : number;
  maxPitch : number;
  isDragging : bool;
  isPanning : bool;
  lastMouseX : number;
  lastMouseY : number;
  lastTouchDistance : option number
}.

(** Assignments to single fields. *)
Definition set_camera (this : OrbitCamera) (v : Entity) : OrbitCamera :=
  mkOrbitCamera v (target this) (distance this) (pitch this) (yaw this)
    (mouseSpeed this) (wheelSpeed this) (panSpeed this)
    (minDistance this) (maxDistance this) (minPitch this) (maxPitch this)
    (isDragging this) (isPanning this) (lastMouseX this) (lastMouseY this)
    (lastTouchDistance this).

Definition set_target (this : OrbitCamera) (v : pc.Vec3) : OrbitCamera :=
  mkOrbitCamera (camera this) v (distance this) (pitch this) (yaw this)
    (mouseSpeed this) (wheelSpeed this) (panSpeed this)
    (minDistance this) (maxDistance this) (minPitch this) (maxPitch this)
    (isDragging this) (isPanning this) (lastMouseX this) (lastMouseY this)
    (lastTouchDistance this).

Definition set_distance (this : OrbitCamera) (v : number) : OrbitCamera :=
  mkOrbitCamera (camera this) (target this) v (pitch this) (yaw this)
    (mouseSpeed this) (wheelSpeed this) (panSpeed this)
    (minDistance this) (maxDistance this) (minPitch this) (maxPitch this)
    (isDragging this) (isPanning this) (lastMouseX this) (lastMouseY this)
    (lastTouchDistance this).

Definition set_pitch (this : OrbitCamera) (v : number) : OrbitCamera :=
  mkOrbitCamera (camera this) (target this) (distance this) v (yaw this)
    (mouseSpeed this) (wheelSpeed this) (panSpeed this)
    (minDistance this) (maxDistance this) (minPitch this) (maxPitch this)
    (isDragging this) (isPanning this) (lastMouseX this) (lastMouseY this)
    (lastTouchDistance this).

Definition set_yaw (this : OrbitCamera) (v : number) : OrbitCamera :=
  mkOrbitCamera (camera this) (target this) (distance this) (pitch this) v
    (mouseSpeed this) (wheelSpeed this) (panSpeed this)
    (minDistance this) (maxDistance this) (minPitch this) (maxPitch this)
    (isDragging this) (isPanning this) (lastMouseX this) (lastMouseY this)
    (lastTouchDistance this).

Definition set_isDragging (this : OrbitCamera) (v : bool) : OrbitCamera :=
  mkOrbitCamera (camera this) (target this) (distance this) (pitch this)
    (yaw this) (mouseSpeed this) (wheelSpeed this) (panSpeed this)
    (minDistance this) (maxDistance this) (minPitch this) (maxPitch this)
    v (isPanning this) (lastMouseX this) (lastMouseY this)
    (lastTouchDistance this).

Definition set_isPanning (this : OrbitCamera) (v : bool) : OrbitCamera :=
  mkOrbitCamera (camera this) (target this) (distance this) (pitch this)
    (yaw this) (mouseSpeed this) (wheelSpeed this) (panSpeed this)
    (minDistance this) (maxDistance this) (minPitch this) (maxPitch this)
    (isDragging this) v (lastMouseX this) (lastMouseY this)
    (lastTouchDistance this).

Definition set_lastMouseX (this : OrbitCamera) (v : number) : OrbitCamera :=
  mkOrbitCamera (camera this) (target this) (distance this) (pitch this)
    (yaw this) (mouseSpeed this) (wheelSpeed this) (panSpeed this)
    (minDistance this) (maxDistance this) (minPitch this) (maxPitch this)
    (isDragging this) (isPanning this) v (lastMouseY this)
    (lastTouchDistance this).

Definition set_lastMouseY (this : OrbitCamera) (v : number) : OrbitCamera :=
  mkOrbitCamera (camera this) (target this) (distance this) (pitch this)
    (yaw this) (mouseSpeed this) (wheelSpeed this) (panSpeed this)
    (minDistance this) (maxDistance this) (minPitch this) (maxPitch this)
    (isDragging this) (isPanning this) (lastMouseX this) v
    (lastTouchDistance this).

Definition set_lastTouchDistance (this : OrbitCamera) (v : option number)
  : OrbitCamera :=
  mkOrbitCamera (camera this) (target this) (distance this) (pitch this)
    (yaw this) (mouseSpeed this) (wheelSpeed this) (panSpeed this)
    (minDistance this) (maxDistance this) (minPitch this) (maxPitch this)
    (isDragging this) (isPanning this) (lastMouseX this) (lastMouseY this)
    v.

(** [updateCameraPosition] (lines 195-229): spherical coordinates around
    the target, then an up vector from [forward x right]. *)
Definition updateCameraPosition (this : OrbitCamera) : OrbitCamera :=
  let pitchRad := pitch this * pc.DEG_TO_RAD in
  let yawRad := yaw this * pc.DEG_TO_RAD in
  let x := pc.x (target this)
           + distance this * Math_sin yawRad * Math_cos pitchRad in
  let y := pc.y (target this) + distance this * Math_sin pitchRad in
  let z := pc.z (target this)
           + distance this * Math_cos yawRad * Math_cos pitchRad in
  let camera1 := setPosition (camera this) x y z in
  let rightX := Math_cos yawRad in
  let rightY := 0 in
  let rightZ := - Math_sin yawRad in
  let forwardX := pc.x (target this) - x in
  let forwardY := pc.y (target this) - y in
  let forwardZ := pc.z (target this) - z in
  let upX := forwardY * rightZ - forwardZ * rightY in
  let upY := forwardZ * rightX - forwardX * rightZ in
  let upZ := forwardX * rightY - forwardY * rightX in
  let up := normalize (pc.mkVec3 upX upY upZ) in
  set_camera this (lookAt camera1 (target this) up).

(** The listener installed for ['mousedown'] (lines 58-68). *)
Definition on_mousedown (this : OrbitCamera) (event : MouseEvent.t)
  : OrbitCamera :=
  if (MouseEvent.button event =? 0)%Z then
    let this1 :=
      if MouseEvent.shiftKey event then set_isPanning this true
      else set_isDragging this true in
    let this2 := set_lastMouseX this1 (MouseEvent.clientX event) in
    set_lastMouseY this2 (MouseEvent.clientY event)
  else this.

(** The pan branch of ['mousemove'] (lines 73-99). *)
Definition panDrag (this : OrbitCamera) (event : MouseEvent.t)
  : OrbitCamera :=
  let deltaX := MouseEvent.clientX event - lastMouseX this in
  let deltaY := MouseEvent.clientY event - lastMouseY this in
  let pitchRad := pitch this * pc.DEG_TO_RAD in
  let yawRad := yaw this * pc.DEG_TO_RAD in
  let rightX := Math_cos yawRad in
  let rightZ := - Math_sin yawRad in
  let upX := - Math_sin yawRad * Math_sin pitchRad in
  let upY := Math_cos pitchRad in
  let upZ := - Math_cos yawRad * Math_sin pitchRad in
  let panScale := panSpeed this * distance this in
  let target1 :=
    pc.mkVec3
      (pc.x (target this)
       + (rightX * deltaX * panScale - upX * deltaY * panScale))
      (pc.y (target this) - upY * deltaY * panScale)
      (pc.z (target this)
       + (rightZ * deltaX * panScale - upZ * deltaY * panScale)) in
  let this1 := set_target this target1 in
  let this2 := set_lastMouseX this1 (MouseEvent.clientX event) in
  let this3 := set_lastMouseY this2 (MouseEvent.clientY event) in
  updateCameraPosition this3.

(** The rotate code, which the source writes out twice with the same
    text: in ['mousemove'] (lines 102-116) for the pointer position and in
    ['touchmove'] (lines 160-174) for the position of the only touch. *)
Definition rotateDrag (this : OrbitCamera) (clientX clientY : number)
  : OrbitCamera :=
  let deltaX := clientX - lastMouseX this in
  let deltaY := clientY - lastMouseY this in
  let this1 := set_yaw this (yaw this - deltaX * mouseSpeed this) in
  let this2 := set_pitch this1 (pitch this1 - deltaY * mouseSpeed this1) in
  let this3 :=
    if isFinite (minPitch this2) && isFinite (maxPitch this2) then
      set_pitch this2
        (Math_max (minPitch this2) (Math_min (maxPitch this2) (pitch this2)))
    else this2 in
  let this4 := set_lastMouseX this3 clientX in
  let this5 := set_lastMouseY this4 clientY in
  updateCameraPosition this5.

(** The listener installed for ['mousemove'] (lines 71-118). *)
Definition on_mousemove (this : OrbitCamera) (event : MouseEvent.t)
  : OrbitCamera :=
  if isPanning this then panDrag this event
  else if isDragging this then
    rotateDrag this (MouseEvent.clientX event) (MouseEvent.clientY event)
  else this.

(** ['mouseup'] (lines 121-126) and ['mouseleave'] (lines 129-132). *)
Definition on_mouseup (this : OrbitCamera) (event : MouseEvent.t)
  : OrbitCamera :=
  if (MouseEvent.button event =? 0)%Z then
    set_isPanning (set_isDragging this false) false
  else this.

Definition on_mouseleave (this : OrbitCamera) : OrbitCamera :=
  set_isPanning (set_isDragging this false) false.

(** ['wheel'] (lines 135-140).  [event.preventDefault()] only stops the
    browser from scrolling the page. *)
Definition on_wheel (this : OrbitCamera) (event : WheelEvent.t)
  : OrbitCamera :=
  let this1 :=
    set_distance this
      (distance this + WheelEvent.deltaY event * wheelSpeed this) in
  let this2 :=
    set_distance this1
      (Math_max (minDistance this1)
         (Math_min (maxDistance this1) (distance this1))) in
  updateCameraPosition this2.

(** The separation of two touch points (lines 151-153 and 176-178). *)
Definition touchSeparation (t0 t1 : Touch.t) : number :=
  let dx := Touch.clientX t0 - Touch.clientX t1 in
  let dy := Touch.clientY t0 - Touch.clientY t1 in
  Math_sqrt (dx * dx + dy * dy).

(** ['touchstart'] (lines 145-155); [touches.length === 1] is a list of
    one touch, [touches.length === 2] a list of two. *)
Definition on_touchstart (this : OrbitCamera) (event : TouchEvent.t)
  : OrbitCamera :=
  match TouchEvent.touches event with
  | [t0] =>
      let this1 := set_isDragging this true in
      let this2 := set_lastMouseX this1 (Touch.clientX t0) in
      set_lastMouseY this2 (Touch.clientY t0)
  | [t0; t1] => set_lastTouchDistance this (Some (touchSeparation t0 t1))
  | _ => this
  end.

(** The pinch branch of ['touchmove'] (lines 176-185). *)
Definition pinch (this : OrbitCamera) (t0 t1 : Touch.t)
  (lastDistance : number) : OrbitCamera :=
  let newDistance := touchSeparation t0 t1 in
  let delta := newDistance - lastDistance in
  let this1 := set_distance this (distance this - delta * 0.01) in
  let this2 :=
    set_distance this1
      (Math_max (minDistance this1)
         (Math_min (maxDistance this1) (distance this1))) in
  let this3 := set_lastTouchDistance this2 (Some newDistance) in
  updateCameraPosition this3.

(** ['touchmove'] (lines 157-187), after its [event.preventDefault()]:
    [touches.length === 1 && this.isDragging] rotates, otherwise
    [touches.length === 2 && lastTouchDistance !== null] pinches. *)
Definition on_touchmove (this : OrbitCamera) (event : TouchEvent.t)
  : OrbitCamera :=
  match TouchEvent.touches event with
  | [t0] =>
      if isDragging this then
        rotateDrag this (Touch.clientX t0) (Touch.clientY t0)
      else this
  | [t0; t1] =>
      match lastTouchDistance this with
      | Some lastDistance => pinch this t0 t1 lastDistance
      | None => this
      end
  | _ => this
  end.

(** ['touchend'] (lines 189-192). *)
Definition on_touchend (this : OrbitCamera) : OrbitCamera :=
  set_lastTouchDistance (set_isDragging this false) None.

(** The public methods (lines 231-246). *)
Definition setTarget (this : OrbitCamera) (target : pc.Vec3) : OrbitCamera :=
  updateCameraPosition
    (set_target this (pc.mkVec3 (pc.x target) (pc.y target) (pc.z target))).

Definition setDistance (this : OrbitCamera) (distance : number)
  : OrbitCamera :=
  updateCameraPosition
    (set_distance this
       (Math_max (minDistance this) (Math_min (maxDistance this) distance))).

Definition reset (this : OrbitCamera) : OrbitCamera :=
  let this1 := set_pitch this 0 in
  let this2 := set_yaw this1 0 in
  let this3 := set_distance this2 5 in
  updateCameraPosition this3.

(** The constructor (lines 35-52).  The field initialisers of lines 30-33
    and the [let lastTouchDistance = null] of [setupEventListeners] give
    the last five fields. *)
Definition new_OrbitCamera (camera : Entity) (options : OrbitCameraOptions.t)
  : OrbitCamera :=
  updateCameraPosition
    {| camera := camera;
       target := pc.mkVec3 0 0 0;
       distance := nullish (OrbitCameraOptions.distance options) 5;
       pitch := nullish (OrbitCameraOptions.pitch options) 0;
       yaw := nullish (OrbitCameraOptions.yaw options) 0;
       mouseSpeed := nullish (OrbitCameraOptions.mouseSpeed options) 0.3;
       wheelSpeed := nullish (OrbitCameraOptions.wheelSpeed options) 0.1;
       panSpeed := nullish (OrbitCameraOptions.panSpeed options) 0.01;
       minDistance := nullish (OrbitCameraOptions.minDistance options) 1;
       maxDistance := nullish (OrbitCameraOptions.maxDistance options) 100;
       minPitch :=
         nullish (OrbitCameraOptions.minPitch options) neg_infinity;
       maxPitch := nullish (OrbitCameraOptions.maxPitch options) infinity;
       isDragging := false;
       isPanning := false;
       lastMouseX := 0;
       lastMouseY := 0;
       lastTouchDistance := None |}.

(** ** Everything that can happen to a controller *)

Inductive Operation : Type :=
| Mousedown (event : MouseEvent.t)
| Mousemove (event : MouseEvent.t)
| Mouseup (event : MouseEvent.t)
| Mouseleave
| Wheel (event : WheelEvent.t)
| Touchstart (event : TouchEvent.t)
| Touchmove (event : TouchEvent.t)
| Touchend
| SetTarget (target : pc.Vec3)
| SetDistance (distance : number)
| Reset.

Definition step (this : OrbitCamera) (op : Operation) : OrbitCamera :=
  match op with
  | Mousedown event => on_mousedown this event
  | Mousemove event => on_mousemove this event
  | Mouseup event => on_mouseup this event
  | Mouseleave => on_mouseleave this
  | Wheel event => on_wheel this event
  | Touchstart event => on_touchstart this event
  | Touchmove event => on_touchmove this event
  | Touchend => on_touchend this
  | SetTarget target => setTarget this target
  | SetDistance distance => setDistance this distance
  | Reset => reset this
  end.

(** The state after constructing a controller and applying operations in
    order. *)
Definition run (camera : Entity) (options : OrbitCameraOptions.t)
  (ops : list Operation) : OrbitCamera :=
  fold_left step ops (new_OrbitCamera camera options).

End Controller.

(** A binary64 value that is [+0] or [-0]. *)
Definition SFis_zero (a : spec_float) : bool :=
  match a with S754_zero _ => true | _ => false end.

(** ** The vocabulary of the specification *)

Section Vocabulary.

Context {host : Host}.

(** "clamped to [[lo, hi]]", the way the source always writes it. *)
Definition clamp (lo hi v : number) : number :=
  Math_max lo (Math_min hi v).

(** [minDistance <= distance <= maxDistance]. *)
Definition distance_in_range (this : OrbitCamera) : bool :=
  (minDistance this <=? distance this)
  && (distance this <=? maxDistance this).

(** [minPitch <= pitch <= maxPitch]. *)
Definition pitch_in_range (this : OrbitCamera) : bool :=
  (minPitch this <=? pitch this) && (pitch this <=? maxPitch this).

Definition Vec3_sub (a b : pc.Vec3) : pc.Vec3 :=
  pc.mkVec3 (pc.x a - pc.x b) (pc.y a - pc.y b) (pc.z a - pc.z b).

(** The cross product [a x b]. *)
Definition Vec3_cross (a b : pc.Vec3) : pc.Vec3 :=
  pc.mkVec3 (pc.y a * pc.z b - pc.z a * pc.y b)
            (pc.z a * pc.x b - pc.x a * pc.z b)
            (pc.x a * pc.y b - pc.y a * pc.x b).

(** The point of the sphere of radius [distance] around [target] at the
    angles [yaw] and [pitch], both in degrees. *)
Definition orbitPosition (target : pc.Vec3) (distance yaw pitch : number)
  : pc.Vec3 :=
  let yawRad := yaw * pc.DEG_TO_RAD in
  let pitchRad := pitch * pc.DEG_TO_RAD in
  pc.mkVec3
    (pc.x target + distance * Math_sin yawRad * Math_cos pitchRad)
    (pc.y target + distance * Math_sin pitchRad)
    (pc.z target + distance * Math_cos yawRad * Math_cos pitchRad).

(** The yaw-only right vector [(cos yaw, 0, -sin yaw)]. *)
Definition rightVector (yaw : number) : pc.Vec3 :=
  let yawRad := yaw * pc.DEG_TO_RAD in
  pc.mkVec3 (Math_cos yawRad) 0 (- Math_sin yawRad).

(** The up vector of the pan basis,
    [(-sin yaw sin pitch, cos pitch, -cos yaw sin pitch)]. *)
Definition panUpVector (yaw pitch : number) : pc.Vec3 :=
  let yawRad := yaw * pc.DEG_TO_RAD in
  let pitchRad := pitch * pc.DEG_TO_RAD in
  pc.mkVec3 (- Math_sin yawRad * Math_sin pitchRad)
            (Math_cos pitchRad)
            (- Math_cos yawRad * Math_sin pitchRad).

(** The placement of the specification: where the camera is put, and how
    it is turned, for a given orbit state. *)
Definition placement (this : OrbitCamera) : Entity :=
  let eye :=
    orbitPosition (target this) (distance this) (yaw this) (pitch this) in
  let forward := Vec3_sub (target this) eye in
  let up := normalize (Vec3_cross forward (rightVector (yaw this))) in
  {| position := eye; rotation := lookAtRotation eye (target this) up |}.

(** A rotate-drag step by [(deltaX, deltaY)] pixels from [this] to
    [this']: the yaw and pitch updates, and the pitch clamp, which is
    applied exactly when both pitch bounds are finite. *)
Definition rotates_by (this this' : OrbitCamera) (deltaX deltaY : number)
  : Prop :=
  let unclamped := pitch this - deltaY * mouseSpeed this in
  yaw this' = yaw this - deltaX * mouseSpeed this
  /\ (isFinite (minPitch this) = true -> isFinite (maxPitch this) = true ->
      pitch this' = clamp (minPitch this) (maxPitch this) unclamped)
  /\ (isFinite (minPitch this) = true -> isFinite (maxPitch this) = true ->
      (minPitch this <=? maxPitch this) = true ->
      is_nan unclamped = false ->
      (minPitch this <=? pitch this') = true
      /\ (pitch this' <=? maxPitch this) = true)
  /\ (is_infinity (minPitch this) = true
      \/ is_infinity (maxPitch this) = true ->
      pitch this' = unclamped).

(** A zoom from [this] to [this']: target, yaw and pitch are kept, and
    [this'] is [this] with a new distance, possibly a new recorded pinch
    separation, and the camera placed anew; configuration, drag flags and
    last pointer position are the same. *)
Definition zoomed (this this' : OrbitCamera) : Prop :=
  target this' = target this
  /\ yaw this' = yaw this
  /\ pitch this' = pitch this
  /\ this'
     = updateCameraPosition
         (set_lastTouchDistance (set_distance this (distance this'))
            (lastTouchDistance this')).

End Vocabulary.

(** ** Concrete controllers and events to run the model on *)

Module Scenario.

#[local] Existing Instance SampleHost.host.

(** The camera entity as the viewer creates it: at [(0, 0, 5)], not yet
    turned. *)
Definition camera0 : Entity :=
  mkEntity (pc.mkVec3 0 0 5)
    (pc.mkVec3 0 0 5, pc.mkVec3 0 0 4, pc.mkVec3 0 1 0).

(** A camera entity that sits somewhere else. *)
Definition camera1 : Entity :=
  mkEntity (pc.mkVec3 1 1 1)
    (pc.mkVec3 1 1 1, pc.mkVec3 0 0 0, pc.mkVec3 0 1 0).

(** The options [GaussianSplatViewer.tsx] passes (lines 52-61). *)
Definition viewerOptions : OrbitCameraOptions.t :=
  OrbitCameraOptions.mk
    (Some (Math_sqrt (4 * 4 + 1 * 1 + 4 * 4))) (Some (-14)) (Some 45)
    (Some 0.3) (Some 0.01) (Some 0.003) (Some 1) (Some 100) None None.

(** [{ distance: 5, pitch: 0, yaw: 0 }]. *)
Definition frontOptions : OrbitCameraOptions.t :=
  OrbitCameraOptions.mk (Some 5) (Some 0) (Some 0)
    None None None None None None None.

(** [{ distance: 200 }]: farther than the default [maxDistance]. *)
Definition farOptions : OrbitCameraOptions.t :=
  OrbitCameraOptions.mk (Some 200) None None
    None None None None None None None.

(** [{ distance: 20, minDistance: 10 }]. *)
Definition highMinOptions : OrbitCameraOptions.t :=
  OrbitCameraOptions.mk (Some 20) None None
    None None None (Some 10) None None None.

(** [{ minPitch: 10, maxPitch: -10 }]: finite bounds in the wrong order. *)
Definition invertedPitchOptions : OrbitCameraOptions.t :=
  OrbitCameraOptions.mk None None None
    None None None None None (Some 10) (Some (-10)).

(** [{ minPitch: -80, maxPitch: 80 }]. *)
Definition boundedPitchOptions : OrbitCameraOptions.t :=
  OrbitCameraOptions.mk None None None
    None None None None None (Some (-80)) (Some 80).

(** [{ pitch: NaN, minPitch: -80, maxPitch: 80 }]. *)
Definition nanPitchOptions : OrbitCameraOptions.t :=
  OrbitCameraOptions.mk None (Some nan) None
    None None None None None (Some (-80)) (Some 80).

(** A plain left-button press at [(0, 0)] and a move to [(cx, cy)]. *)
Definition press : MouseEvent.t := MouseEvent.mk 0 false 0 0.
Definition shiftPress : MouseEvent.t := MouseEvent.mk 0 true 0 0.
Definition moveTo (cx cy : number) : MouseEvent.t :=
  MouseEvent.mk 0 false cx cy.

(** Two fingers on a horizontal line, [sep] pixels apart. *)
Definition twoTouches (sep : number) : TouchEvent.t :=
  TouchEvent.mk [Touch.mk 0 0; Touch.mk sep 0].

(** Two fingers on a vertical line, [sep] pixels apart. *)
Definition verticalTouches (sep : number) : TouchEvent.t :=
  TouchEvent.mk [Touch.mk 0 0; Touch.mk 0 sep].

Definition oneTouch (cx cy : number) : TouchEvent.t :=
  TouchEvent.mk [Touch.mk cx cy].

(** A session that uses every kind of operation. *)
Definition session : list Operation :=
  [ Mousedown press; Mousemove (moveTo 100 20); Mouseup press;
    Wheel (WheelEvent.mk 50); Wheel (WheelEvent.mk 5000);
    Mousedown shiftPress; Mousemove (moveTo 30 (-10)); Mouseleave;
    Touchstart (twoTouches 100); Touchmove (twoTouches 150); Touchend;
    Touchstart (oneTouch 10 10); Touchmove (oneTouch 40 50); Touchend;
    SetTarget (pc.mkVec3 1 2 3); SetDistance 0.25; Reset;
    Wheel (WheelEvent.mk 50) ].

End Scenario.

(** ** Inputs made of finite numbers *)

(** A binary64 value that is a zero or a finite non-zero number. *)
Definition SFis_finite (a : spec_float) : bool :=
  match a with
  | S754_zero _ | S754_finite _ _ _ => true
  | _ => false
  end.

Section FiniteInputs.

Context {host : Host}.

(** The numbers an operation brings in are usable: a wheel delta is finite,
    two touch points are a finite distance apart, and the value handed to
    [setDistance] is not NaN.  Browsers deliver finite coordinates and
    deltas; the separation is finite unless its squares overflow. *)
Definition finite_input (op : Operation) : bool :=
  match op with
  | Wheel event => is_finite (WheelEvent.deltaY event)
  | Touchstart event | Touchmove event =>
      match TouchEvent.touches event with
      | [t0; t1] => is_finite (touchSeparation t0 t1)
      | _ => true
      end
  | SetDistance distance => negb (is_nan distance)
  | _ => true
  end.

(** The operations whose code has an assignment to [this.distance]: the
    wheel listener, the pinch branch of ['touchmove'], [setDistance] and
    [reset]. *)
Definition may_assign_distance (op : Operation) : bool :=
  match op with
  | Wheel _ | Touchmove _ | SetDistance _ | Reset => true
  | _ => false
  end.

(** The operations that can arm a touch gesture: ['touchstart'] sets
    [isDragging] or records a pinch separation, ['mousedown'] sets
    [isDragging]. *)
Definition starts_gesture (op : Operation) : bool :=
  match op with
  | Touchstart _ | Mousedown _ => true
  | _ => false
  end.

(** The configuration fields, which no operation assigns. *)
Definition same_configuration (this this' : OrbitCamera) : Prop :=
  mouseSpeed this' = mouseSpeed this
  /\ wheelSpeed this' = wheelSpeed this
  /\ panSpeed this' = panSpeed this
  /\ minDistance this' = minDistance this
  /\ maxDistance this' = maxDistance this
  /\ minPitch this' = minPitch this
  /\ maxPitch this' = maxPitch this.

End FiniteInputs.

(** ** The viewer's check of a file name

    [loadGaussianSplatFile] in [components/GaussianSplatViewer.tsx] takes
    the extension of the file name and refuses every extension but three
    (lines 82-90).  Strings are sequences of code units;
    [String.prototype.toLowerCase] is the host's and is a parameter. *)

Module Viewer.

Import String Ascii.
Local Open Scope string_scope.

(** [s.split(sep)] for a separator of one code unit: the pieces between
    the separators, at least one piece. *)
Fixpoint split (sep : ascii) (s : string) : list string :=
  match s with
  | EmptyString => [EmptyString]
  | String c rest =>
      if Ascii.eqb c sep then EmptyString :: split sep rest
      else
        match split sep rest with
        | piece :: pieces => String c piece :: pieces
        | [] => [String c EmptyString]
        end
  end.

(** [array.pop()]: the last element, [undefined] for an empty array. *)
Fixpoint pop {A : Type} (array : list A) : option A :=
  match array with
  | [] => None
  | [last] => Some last
  | _ :: rest => pop rest
  end.

(** [array.includes(s)] on strings. *)
Definition includes (array : list string) (s : string) : bool :=
  existsb (String.eqb s) array.

(** Whether a string holds the code unit ["."]. *)
Fixpoint hasDot (s : string) : bool :=
  match s with
  | EmptyString => false
  | String c rest => Ascii.eqb c "." || hasDot rest
  end.

Section Validation.

Variable toLowerCase : string -> string.

(** Line 83: [filename.split('.').pop()?.toLowerCase()]. *)
Definition extensionOf (filename : string) : option string :=
  match pop (split "." filename) with
  | Some piece => Some (toLowerCase piece)
  | None => None
  end.

(** Lines 86-90: the error the viewer shows when it refuses the file,
    [None] when the file goes on to the loader.  [!extension] holds for
    [undefined] and for the empty string. *)
Definition unsupportedFormat (filename : string) : option string :=
  match extensionOf filename with
  | None => Some "Unsupported file format: undefined"
  | Some extension =>
      if (extension =? "") || negb (includes ["ply"; "sog"; "splat"] extension)
      then Some ("Unsupported file format: " ++ extension)
      else None
  end.

End Validation.

(** A [toLowerCase] for file names of ASCII code units. *)
Definition lowerUnit (c : ascii) : ascii :=
  let n := nat_of_ascii c in
  if (65 <=? n)%nat && (n <=? 90)%nat then ascii_of_nat (n + 32) else c.

Fixpoint lowerASCII (s : string) : string :=
  match s with
  | EmptyString => EmptyString
  | String c rest => String (lowerUnit c) (lowerASCII rest)
  end.

End Viewer.

(** ** Order facts about binary64 numbers *)

Lemma SFcompare_refl (a : spec_float) :
  a <> S754_nan -> SFcompare a a = Some Eq.
Proof.
  destruct a as [s | s | | s m e]; simpl; intros Hn; try congruence.
  - destruct s; reflexivity.
  - rewrite Z.compare_refl, Pos.compare_cont_refl. destruct s; reflexivity.
Qed.

Lemma SFcompare_antisym (a b : spec_float) :
  SFcompare b a = option_map CompOpp (SFcompare a b).
Proof.
  destruct a as [sa | sa | | sa ma ea], b as [sb | sb | | sb mb eb]; simpl;
    try reflexivity;
    try (destruct sa; reflexivity); try (destruct sb; reflexivity);
    try (destruct sa, sb; reflexivity).
  f_equal. rewrite (Z.compare_antisym ea eb).
  pose proof (Pos.compare_cont_antisym ma mb Eq) as Hm. simpl in Hm.
  rewrite <- Hm.
  destruct sa, sb; simpl; try reflexivity;
    destruct (ea ?= eb)%Z; simpl; try reflexivity;
    destruct (Pos.compare_cont Eq ma mb); reflexivity.
Qed.

Lemma SFleb_trans (a b c : spec_float) :
  SFleb a b = true -> SFleb b c = true -> SFleb a c = true.
Proof.
  unfold SFleb.
  destruct a as [sa | sa | | sa ma ea], b as [sb | sb | | sb mb eb],
    c as [sc | sc | | sc mc ec]; simpl;
    try discriminate; try reflexivity;
    try (destruct sa; simpl; try discriminate; try reflexivity;
         destruct sb; simpl; try discriminate; try reflexivity;
         destruct sc; simpl; try discriminate; reflexivity);
    try (destruct sa, sb; simpl; try discriminate; reflexivity);
    try (destruct sb, sc; simpl; try discriminate; reflexivity);
    try (destruct sa, sc; simpl; try discriminate; reflexivity).
  change (Pos.compare_cont Eq ma mb) with (Pos.compare ma mb).
  change (Pos.compare_cont Eq mb mc) with (Pos.compare mb mc).
  change (Pos.compare_cont Eq ma mc) with (Pos.compare ma mc).
  destruct sa, sb, sc; simpl; try discriminate; try reflexivity;
    destruct (Z.compare_spec ea eb); try discriminate;
    destruct (Z.compare_spec eb ec); try discriminate;
    destruct (Z.compare_spec ea ec); try lia; try reflexivity;
    destruct (Pos.compare_spec ma mb); simpl; try discriminate;
    destruct (Pos.compare_spec mb mc); simpl; try discriminate;
    destruct (Pos.compare_spec ma mc); simpl; try lia; try reflexivity.
Qed.

Lemma is_nan_spec (a : number) :
  is_nan a = match Prim2SF a with S754_nan => true | _ => false end.
Proof.
  unfold is_nan. rewrite eqb_spec. unfold SFeqb.
  destruct (Prim2SF a) as [s | s | | s m e] eqn:E.
  - reflexivity.
  - destruct s; reflexivity.
  - reflexivity.
  - rewrite SFcompare_refl by discriminate. reflexivity.
Qed.

Lemma leb_refl (a : number) : is_nan a = false -> (a <=? a) = true.
Proof.
  rewrite is_nan_spec, leb_spec. unfold SFleb. intros H.
  rewrite SFcompare_refl; [reflexivity|].
  intros E; rewrite E in H; discriminate.
Qed.

Lemma leb_trans (a b c : number) :
  (a <=? b) = true -> (b <=? c) = true -> (a <=? c) = true.
Proof. rewrite !leb_spec. apply SFleb_trans. Qed.

Lemma ltb_leb (a b : number) : (a <? b) = true -> (a <=? b) = true.
Proof.
  rewrite ltb_spec, leb_spec. unfold SFltb, SFleb.
  destruct (SFcompare _ _) as [[ | | ] | ]; congruence.
Qed.

Lemma nltb_leb (a b : number) :
  is_nan a = false -> is_nan b = false ->
  (b <? a) = false -> (a <=? b) = true.
Proof.
  rewrite !is_nan_spec, ltb_spec, leb_spec. unfold SFltb, SFleb.
  rewrite (SFcompare_antisym (Prim2SF a) (Prim2SF b)).
  destruct (Prim2SF a) as [s | s | | s m e],
    (Prim2SF b) as [s' | s' | | s' m' e'];
    try discriminate; intros _ _;
    destruct (SFcompare _ _) as [[ | | ] | ] eqn:E; simpl; try congruence;
    simpl in E; discriminate.
Qed.

Lemma leb_not_nan (a b : number) :
  (a <=? b) = true -> is_nan a = false /\ is_nan b = false.
Proof.
  rewrite !is_nan_spec, leb_spec. unfold SFleb.
  destruct (Prim2SF a) as [s | s | | s m e],
    (Prim2SF b) as [s' | s' | | s' m' e']; simpl;
    try discriminate; auto.
Qed.

(** ** [Math.max], [Math.min] and clamping *)

Lemma Math_min_cases (a b : number) :
  is_nan a = false -> is_nan b = false ->
  (Math_min a b = a /\ (a <=? b) = true)
  \/ (Math_min a b = b /\ (b <=? a) = true).
Proof.
  intros Ha Hb. unfold Math_min. rewrite Ha, Hb. simpl.
  destruct (a <? b) eqn:Hab; [left; auto using ltb_leb|].
  destruct (b <? a) eqn:Hba; [right; auto using ltb_leb|].
  destruct (get_sign a); [left | right]; auto using nltb_leb.
Qed.

Lemma Math_max_cases (a b : number) :
  is_nan a = false -> is_nan b = false ->
  (Math_max a b = a /\ (b <=? a) = true)
  \/ (Math_max a b = b /\ (a <=? b) = true).
Proof.
  intros Ha Hb. unfold Math_max. rewrite Ha, Hb. simpl.
  destruct (a <? b) eqn:Hab; [right; auto using ltb_leb|].
  destruct (b <? a) eqn:Hba; [left; auto using ltb_leb|].
  destruct (get_sign a); [right | left]; auto using nltb_leb.
Qed.

Lemma Math_min_nan_r (a : number) : Math_min a nan = nan.
Proof. unfold Math_min. rewrite orb_true_r. reflexivity. Qed.

Lemma Math_max_nan_r (a : number) : Math_max a nan = nan.
Proof. unfold Math_max. rewrite orb_true_r. reflexivity. Qed.

Lemma is_nan_true (a : number) : is_nan a = true -> a = nan.
Proof.
  rewrite is_nan_spec. intros H. apply Prim2SF_inj.
  destruct (Prim2SF a); try discriminate. reflexivity.
Qed.

(** Clamping between ordered bounds lands between the bounds. *)
Lemma clamp_in_range (lo hi v : number) :
  (lo <=? hi) = true -> is_nan v = false ->
  (lo <=? clamp lo hi v) = true /\ (clamp lo hi v <=? hi) = true.
Proof.
  intros Hlh Hv. destruct (leb_not_nan _ _ Hlh) as [Hlo Hhi].
  unfold clamp.
  destruct (Math_min_cases hi v Hhi Hv) as [[-> Hm] | [-> Hm]].
  - destruct (Math_max_cases lo hi Hlo Hhi) as [[-> Hx] | [-> Hx]];
      auto using leb_refl.
  - destruct (Math_max_cases lo v Hlo Hv) as [[-> Hx] | [-> Hx]];
      auto using leb_refl.
Qed.

(** A clamped value is a number only if the value was one. *)
Lemma clamp_not_nan (lo hi v : number) :
  is_nan (clamp lo hi v) = false -> is_nan v = false.
Proof.
  destruct (is_nan v) eqn:Hv; [|reflexivity].
  apply is_nan_true in Hv. subst v. unfold clamp.
  rewrite Math_min_nan_r, Math_max_nan_r. intros H; exact H.
Qed.

(** ** What the operations leave alone *)

Section StepFacts.

Context {host : Host}.

(** The placement computation overwrites the camera and nothing else. *)
Lemma updateCameraPosition_state (this : OrbitCamera) :
  updateCameraPosition this
  = set_camera this (camera (updateCameraPosition this)).
Proof. reflexivity. Qed.

(** It puts the camera where the specification's placement puts it. *)
Lemma updateCameraPosition_placement (this : OrbitCamera) :
  camera (updateCameraPosition this) = placement this.
Proof. reflexivity. Qed.

(** No operation touches the distance bounds. *)
Lemma step_bounds (this : OrbitCamera) (op : Operation) :
  minDistance (step this op) = minDistance this
  /\ maxDistance (step this op) = maxDistance this.
Proof.
  destruct op as [e | e | e | | e | e | e | | t | d | ]; simpl;
    unfold on_mousedown, on_mousemove, on_mouseup, on_touchstart,
      on_touchmove, rotateDrag;
    try (split; reflexivity).
  - destruct (MouseEvent.button e =? 0)%Z; [|split; reflexivity].
    destruct (MouseEvent.shiftKey e); split; reflexivity.
  - destruct (isPanning this); [split; reflexivity|].
    destruct (isDragging this); [|split; reflexivity].
    simpl. destruct (isFinite _ && isFinite _); split; reflexivity.
  - destruct (MouseEvent.button e =? 0)%Z; split; reflexivity.
  - destruct (TouchEvent.touches e) as [|t0 [|t1 [|t2 ts]]];
      split; reflexivity.
  - destruct (TouchEvent.touches e) as [|t0 [|t1 [|t2 ts]]];
      try (split; reflexivity).
    + destruct (isDragging this); [|split; reflexivity].
      simpl. destruct (isFinite _ && isFinite _); split; reflexivity.
    + destruct (lastTouchDistance this); split; reflexivity.
Qed.

(** An operation keeps the distance, or installs a clamped value, or is
    [reset] and installs 5. *)
Lemma step_distance (this : OrbitCamera) (op : Operation) :
  distance (step this op) = distance this
  \/ (exists v,
         distance (step this op)
         = clamp (minDistance this) (maxDistance this) v)
  \/ (op = Reset /\ distance (step this op) = 5).
Proof.
  destruct op as [e | e | e | | e | e | e | | t | d | ]; simpl;
    unfold on_mousedown, on_mousemove, on_mouseup, on_touchstart,
      on_touchmove, rotateDrag;
    try (left; reflexivity).
  - destruct (MouseEvent.button e =? 0)%Z; [|left; reflexivity].
    destruct (MouseEvent.shiftKey e); left; reflexivity.
  - destruct (isPanning this); [left; reflexivity|].
    destruct (isDragging this); [|left; reflexivity].
    simpl. destruct (isFinite _ && isFinite _); left; reflexivity.
  - destruct (MouseEvent.button e =? 0)%Z; left; reflexivity.
  - right; left. eexists. reflexivity.
  - destruct (TouchEvent.touches e) as [|t0 [|t1 [|t2 ts]]];
      left; reflexivity.
  - destruct (TouchEvent.touches e) as [|t0 [|t1 [|t2 ts]]];
      try (left; reflexivity).
    + destruct (isDragging this); [|left; reflexivity].
      simpl. destruct (isFinite _ && isFinite _); left; reflexivity.
    + destruct (lastTouchDistance this); [|left; reflexivity].
      right; left. eexists. reflexivity.
  - right; left. eexists. reflexivity.
  - right; right. split; reflexivity.
Qed.

(** The distance invariant, for states whose distance is a number, is
    kept by every operation, given ordered bounds that admit the distance
    5 if the operation is [reset]. *)
Lemma step_keeps_range (this : OrbitCamera) (op : Operation) :
  (minDistance this <=? maxDistance this) = true ->
  (op = Reset ->
   (minDistance this <=? 5) = true /\ (5 <=? maxDistance this) = true) ->
  (is_nan (distance this) = false -> distance_in_range this = true) ->
  is_nan (distance (step this op)) = false ->
  distance_in_range (step this op) = true.
Proof.
  intros Hlh Hreset Hthis Hnan. unfold distance_in_range in *.
  destruct (step_bounds this op) as [-> ->].
  destruct (step_distance this op) as [E | [[v E] | [E1 E]]];
    rewrite E in *.
  - auto.
  - apply clamp_not_nan in Hnan.
    destruct (clamp_in_range _ _ _ Hlh Hnan) as [-> ->]. reflexivity.
  - destruct (Hreset E1) as [-> ->]. reflexivity.
Qed.

Lemma fold_step_bounds (ops : list Operation) (this : OrbitCamera) :
  minDistance (fold_left step ops this) = minDistance this
  /\ maxDistance (fold_left step ops this) = maxDistance this.
Proof.
  revert this. induction ops as [|op ops IH]; intros this; simpl.
  - split; reflexivity.
  - destruct (IH (step this op)) as [-> ->]. apply step_bounds.
Qed.

Lemma fold_step_keeps_range (ops : list Operation) (this : OrbitCamera) :
  (minDistance this <=? maxDistance this) = true ->
  (In Reset ops ->
   (minDistance this <=? 5) = true /\ (5 <=? maxDistance this) = true) ->
  (is_nan (distance this) = false -> distance_in_range this = true) ->
  is_nan (distance (fold_left step ops this)) = false ->
  distance_in_range (fold_left step ops this) = true.
Proof.
  revert this. induction ops as [|op ops IH]; intros this Hlh Hreset Hthis;
    simpl.
  - exact Hthis.
  - destruct (step_bounds this op) as [Hlo Hhi].
    apply IH.
    + rewrite Hlo, Hhi. exact Hlh.
    + rewrite Hlo, Hhi. intros Hin. apply Hreset. right. exact Hin.
    + apply step_keeps_range; auto.
      intros ->. apply Hreset. left. reflexivity.
Qed.

End StepFacts.

(** ** The distance invariant *)

Lemma clamp_establishes_range (lo hi v : number) :
  (lo <=? hi) = true -> is_nan (clamp lo hi v) = false ->
  (lo <=? clamp lo hi v) && (clamp lo hi v <=? hi) = true.
Proof.
  intros Hle Hnan. apply clamp_not_nan in Hnan.
  destruct (clamp_in_range _ _ _ Hle Hnan) as [-> ->]. reflexivity.
Qed.

(** C1, as amended.  Wheel, pinch and [setDistance] clamp: whatever the
    state before, with [minDistance <= maxDistance] the state after them
    satisfies [minDistance <= distance <= maxDistance] as soon as its
    distance is a number (not NaN).  Every operation without an assignment
    to the distance, and a touch move that is not a pinch in progress,
    leaves the invariant as it was.  Construction and [reset] assign the
    distance unclamped: after construction the invariant holds exactly
    when the initial distance lies between the bounds, after [reset]
    exactly when 5 does.  Hence, for bounds in order: once the invariant
    holds in a reachable state whose distance is a number, be it after
    construction or after a clamp, it holds in every later state whose
    distance is a number, provided 5 lies between the bounds in case
    [reset] is called later. *)
Theorem distance_invariant {host : Host} :
  (forall (this : OrbitCamera) (op : Operation),
      (minDistance this <=? maxDistance this) = true ->
      is_nan (distance (step this op)) = false ->
      (exists event, op = Wheel event)
      \/ (exists value, op = SetDistance value)
      \/ (exists t0 t1 last,
             op = Touchmove (TouchEvent.mk [t0; t1])
             /\ lastTouchDistance this = Some last) ->
      distance_in_range (step this op) = true)
  /\ (forall (this : OrbitCamera) (op : Operation),
         may_assign_distance op = false ->
         distance_in_range (step this op) = distance_in_range this)
  /\ (forall (this : OrbitCamera) (event : TouchEvent.t),
         (forall t0 t1,
             TouchEvent.touches event = [t0; t1] ->
             lastTouchDistance this = None) ->
         distance_in_range (on_touchmove this event)
         = distance_in_range this)
  /\ (forall (camera : Entity) (options : OrbitCameraOptions.t),
         distance_in_range (new_OrbitCamera camera options)
         = (nullish (OrbitCameraOptions.minDistance options) 1
            <=? nullish (OrbitCameraOptions.distance options) 5)
           && (nullish (OrbitCameraOptions.distance options) 5
               <=? nullish (OrbitCameraOptions.maxDistance options) 100))
  /\ (forall this : OrbitCamera,
         distance_in_range (reset this)
         = (minDistance this <=? 5) && (5 <=? maxDistance this))
  /\ (forall (camera : Entity) (options : OrbitCameraOptions.t)
        (before after : list Operation),
         (nullish (OrbitCameraOptions.minDistance options) 1
          <=? nullish (OrbitCameraOptions.maxDistance options) 100) = true ->
         (is_nan (distance (run camera options before)) = false ->
          distance_in_range (run camera options before) = true) ->
         (In Reset after ->
          (nullish (OrbitCameraOptions.minDistance options) 1 <=? 5) = true
          /\ (5 <=? nullish (OrbitCameraOptions.maxDistance options) 100)
             = true) ->
         is_nan (distance (run camera options (before ++ after))) = false ->
         distance_in_range (run camera options (before ++ after)) = true).
Proof.
  split; [|split; [|split; [|split; [|split]]]].
  - intros this op Hle Hnan Hop. unfold distance_in_range.
    destruct (step_bounds this op) as [-> ->].
    destruct Hop as [[e ->] | [[v ->] | (t0 & t1 & last & -> & Hlast)]].
    + exact (clamp_establishes_range _ _ _ Hle Hnan).
    + exact (clamp_establishes_range _ _ _ Hle Hnan).
    + revert Hnan. simpl. unfold on_touchmove. simpl. rewrite Hlast.
      exact (clamp_establishes_range _ _ _ Hle).
  - intros this op Hop. unfold distance_in_range.
    destruct op as [e | e | e | | e | e | e | | t | d | ];
      try discriminate Hop; simpl;
      unfold on_mousedown, on_mousemove, on_mouseup, on_touchstart,
        rotateDrag.
    + destruct (MouseEvent.button e =? 0)%Z; [|reflexivity].
      destruct (MouseEvent.shiftKey e); reflexivity.
    + destruct (isPanning this); [reflexivity|].
      destruct (isDragging this); [|reflexivity].
      simpl. destruct (isFinite _ && isFinite _); reflexivity.
    + destruct (MouseEvent.button e =? 0)%Z; reflexivity.
    + reflexivity.
    + destruct (TouchEvent.touches e) as [|t0 [|t1 [|t2 ts]]]; reflexivity.
    + reflexivity.
    + reflexivity.
  - intros this event Hnone. unfold distance_in_range, on_touchmove, rotateDrag.
    destruct (TouchEvent.touches event) as [|t0 [|t1 [|t2 ts]]];
      try reflexivity.
    + destruct (isDragging this); [|reflexivity].
      simpl. destruct (isFinite _ && isFinite _); reflexivity.
    + rewrite (Hnone t0 t1 eq_refl). reflexivity.
  - reflexivity.
  - reflexivity.
  - intros camera options before after Hle Hbefore Hreset.
    unfold run in *. rewrite fold_left_app.
    destruct (fold_step_bounds before (new_OrbitCamera camera options))
      as [Elo Ehi].
    apply fold_step_keeps_range.
    + rewrite Elo, Ehi. exact Hle.
    + rewrite Elo, Ehi. exact Hreset.
    + exact Hbefore.
Qed.

(** A controller constructed with [{ distance: 200 }] starts outside the
    bounds; the first wheel event brings it to [maxDistance], and the
    invariant then holds through the session that uses every operation. *)
Lemma distance_invariant_witness :
  distance_in_range
    (step (run Scenario.camera0 Scenario.farOptions [])
       (Wheel (WheelEvent.mk 50)))
  = true
  /\ distance_in_range
       (run Scenario.camera0 Scenario.farOptions
          ([Wheel (WheelEvent.mk 50)] ++ Scenario.session))
     = true.
Proof.
  split.
  - exact (proj1 (@distance_invariant SampleHost.host)
             (run Scenario.camera0 Scenario.farOptions [])
             (Wheel (WheelEvent.mk 50)) eq_refl eq_refl
             (or_introl (ex_intro _ (WheelEvent.mk 50) eq_refl))).
  - refine (proj2 (proj2 (proj2 (proj2 (proj2
              (@distance_invariant SampleHost.host)))))
              Scenario.camera0 Scenario.farOptions
              [Wheel (WheelEvent.mk 50)] Scenario.session
              eq_refl (fun _ => eq_refl) _ eq_refl).
    intros _. split; reflexivity.
Defined.

(** C1 as stated fails: a controller constructed with [{ distance: 200 }]
    starts at distance 200 above the default [maxDistance] of 100; one
    constructed with [{ distance: 20, minDistance: 10 }] satisfies the
    invariant until [reset] puts it at distance 5; and [setDistance(NaN)]
    leaves the distance NaN, which is not between any bounds. *)
Lemma distance_invariant_counterexample :
  distance (run Scenario.camera0 Scenario.farOptions []) = 200
  /\ maxDistance (run Scenario.camera0 Scenario.farOptions []) = 100
  /\ distance_in_range (run Scenario.camera0 Scenario.farOptions []) = false
  /\ distance_in_range (run Scenario.camera0 Scenario.highMinOptions [])
     = true
  /\ distance_in_range
       (run Scenario.camera0 Scenario.highMinOptions [Reset])
     = false
  /\ distance_in_range
       (run Scenario.camera0 OrbitCameraOptions.empty [SetDistance nan])
     = false.
Proof. repeat split. Qed.

(** ** Rotating *)

Lemma is_infinity_not_finite (v : number) :
  is_infinity v = true -> isFinite v = false.
Proof.
  intros H. unfold isFinite, is_finite. rewrite H, orb_true_r. reflexivity.
Qed.

Section Rotate.

Context {host : Host}.

Lemma rotateDrag_rotates (this : OrbitCamera) (clientX clientY : number) :
  rotates_by this (rotateDrag this clientX clientY)
    (clientX - lastMouseX this) (clientY - lastMouseY this).
Proof.
  unfold rotates_by, rotateDrag. simpl.
  split; [|split; [|split]].
  - destruct (isFinite _ && isFinite _); reflexivity.
  - intros -> ->. reflexivity.
  - intros -> -> Hle Hnan. simpl. apply clamp_in_range; assumption.
  - intros [H | H]; apply is_infinity_not_finite in H; rewrite H;
      [|rewrite andb_false_r]; reflexivity.
Qed.

End Rotate.

(** C2, as amended.  A rotate-drag step, by mouse or by a single touch,
    subtracts [dx * mouseSpeed] from the yaw and [dy * mouseSpeed] from the
    pitch.  If both pitch bounds are finite the pitch is then clamped, to
    [Math.max(minPitch, Math.min(maxPitch, pitch))], which lies between the
    bounds provided that [minPitch <= maxPitch] and that the unclamped
    pitch is a number; if either bound is infinite the unclamped pitch is
    kept. *)
Theorem rotate_drag_step {host : Host} :
  (forall (this : OrbitCamera) (event : MouseEvent.t),
      isPanning this = false -> isDragging this = true ->
      rotates_by this (on_mousemove this event)
        (MouseEvent.clientX event - lastMouseX this)
        (MouseEvent.clientY event - lastMouseY this))
  /\ (forall (this : OrbitCamera) (t0 : Touch.t),
         isDragging this = true ->
         rotates_by this (on_touchmove this (TouchEvent.mk [t0]))
           (Touch.clientX t0 - lastMouseX this)
           (Touch.clientY t0 - lastMouseY this)).
Proof.
  split.
  - intros this event Hpan Hdrag. unfold on_mousemove.
    rewrite Hpan, Hdrag. apply rotateDrag_rotates.
  - intros this t0 Hdrag. unfold on_touchmove. simpl.
    rewrite Hdrag. apply rotateDrag_rotates.
Qed.

(** With the bounds [-80] and [80], dragging 1000 pixels down stops the
    pitch at [-80]. *)
Lemma rotate_drag_step_witness :
  pitch (run Scenario.camera0 Scenario.boundedPitchOptions
           [Mousedown Scenario.press; Mousemove (Scenario.moveTo 100 1000)])
  = (-80)
  /\ ((-80) <=?
      pitch (on_mousemove
               (run Scenario.camera0 Scenario.boundedPitchOptions
                  [Mousedown Scenario.press])
               (Scenario.moveTo 100 1000))) = true
  /\ (pitch (on_mousemove
               (run Scenario.camera0 Scenario.boundedPitchOptions
                  [Mousedown Scenario.press])
               (Scenario.moveTo 100 1000)) <=? 80) = true.
Proof.
  split; [reflexivity|].
  exact (proj1 (proj2 (proj2
           (proj1 (@rotate_drag_step SampleHost.host)
              (run Scenario.camera0 Scenario.boundedPitchOptions
                 [Mousedown Scenario.press])
              (Scenario.moveTo 100 1000) eq_refl eq_refl)))
         eq_refl eq_refl eq_refl eq_refl).
Defined.

(** C2 as stated fails: with the finite bounds [minPitch = 10] and
    [maxPitch = -10] a drag leaves the pitch at 10, above [maxPitch]; and
    with finite bounds and a pitch that is NaN the pitch stays NaN, which is
    not between any bounds. *)
Lemma rotate_drag_step_counterexample :
  isFinite (minPitch
              (run Scenario.camera0 Scenario.invertedPitchOptions
                 [Mousedown Scenario.press; Mousemove (Scenario.moveTo 100 20)]))
  = true
  /\ isFinite (maxPitch
                 (run Scenario.camera0 Scenario.invertedPitchOptions
                    [Mousedown Scenario.press;
                     Mousemove (Scenario.moveTo 100 20)]))
     = true
  /\ pitch (run Scenario.camera0 Scenario.invertedPitchOptions
              [Mousedown Scenario.press; Mousemove (Scenario.moveTo 100 20)])
     = 10
  /\ pitch_in_range
       (run Scenario.camera0 Scenario.invertedPitchOptions
          [Mousedown Scenario.press; Mousemove (Scenario.moveTo 100 20)])
     = false
  /\ pitch_in_range
       (run Scenario.camera0 Scenario.nanPitchOptions
          [Mousedown Scenario.press; Mousemove (Scenario.moveTo 100 20)])
     = false.
Proof. repeat split. Qed.

(** ** Placement *)

(** C3.  The placement computation puts the camera at
    [target + distance * (sin yaw cos pitch, sin pitch, cos yaw cos pitch)],
    the angles converted from degrees to radians; and on a host whose sine
    and cosine are exact at [+0], a controller constructed with
    [distance = 5], [pitch = 0], [yaw = 0] has its target at the origin and
    its camera at [(0, 0, 5)], turned by [lookAt] towards [(0, 0, 0)]. *)
Theorem placement_position {host : Host} :
  (forall this : OrbitCamera,
      position (camera (updateCameraPosition this))
      = pc.mkVec3
          (pc.x (target this)
           + distance this * Math_sin (yaw this * pc.DEG_TO_RAD)
             * Math_cos (pitch this * pc.DEG_TO_RAD))
          (pc.y (target this)
           + distance this * Math_sin (pitch this * pc.DEG_TO_RAD))
          (pc.z (target this)
           + distance this * Math_cos (yaw this * pc.DEG_TO_RAD)
             * Math_cos (pitch this * pc.DEG_TO_RAD)))
  /\ (Math_sin 0 = 0 -> Math_cos 0 = 1 ->
      forall camera0 : Entity,
        target (new_OrbitCamera camera0 Scenario.frontOptions)
        = pc.mkVec3 0 0 0
        /\ position (camera (new_OrbitCamera camera0 Scenario.frontOptions))
           = pc.mkVec3 0 0 5
        /\ rotation (camera (new_OrbitCamera camera0 Scenario.frontOptions))
           = lookAtRotation (pc.mkVec3 0 0 5) (pc.mkVec3 0 0 0)
               (normalize (pc.mkVec3 0 (-5) 0))).
Proof.
  split; [reflexivity|].
  intros Hsin Hcos camera0.
  unfold new_OrbitCamera, updateCameraPosition, Scenario.frontOptions,
    setPosition, lookAt, set_camera; cbn [nullish OrbitCameraOptions.distance
    OrbitCameraOptions.pitch OrbitCameraOptions.yaw camera target distance
    pitch yaw position rotation pc.x pc.y pc.z].
  change (0 * pc.DEG_TO_RAD) with 0.
  rewrite Hsin, Hcos.
  repeat split.
Qed.

(** The sample host is exact at [+0]; the camera it is given sits elsewhere
    and is moved to [(0, 0, 5)]. *)
Lemma placement_position_witness :
  position (camera (new_OrbitCamera Scenario.camera1 Scenario.frontOptions))
  = pc.mkVec3 0 0 5.
Proof.
  exact (proj1 (proj2
           (proj2 (@placement_position SampleHost.host) eq_refl eq_refl
              Scenario.camera1))).
Defined.

(** C4.  The camera is turned by [lookAt] towards the target, with the up
    vector [normalize (forward x right)], where
    [right = (cos yaw, 0, -sin yaw)] and [forward] is the target minus the
    camera position just computed. *)
Theorem placement_orientation {host : Host} (this : OrbitCamera) :
  rotation (camera (updateCameraPosition this))
  = lookAtRotation
      (position (camera (updateCameraPosition this)))
      (target this)
      (normalize
         (Vec3_cross
            (Vec3_sub (target this)
               (position (camera (updateCameraPosition this))))
            (pc.mkVec3 (Math_cos (yaw this * pc.DEG_TO_RAD))
               0
               (- Math_sin (yaw this * pc.DEG_TO_RAD))))).
Proof. reflexivity. Qed.

(** ** Construction and [reset] *)

(** C5, as amended.  The constructor takes the camera entity and the
    options only, and the orbit target it installs is always the origin; a
    caller supplies a target afterwards, through [setTarget], and the orbit
    target then equals the supplied point. *)
Theorem constructor_target {host : Host} :
  (forall (camera : Entity) (options : OrbitCameraOptions.t),
      target (new_OrbitCamera camera options) = pc.mkVec3 0 0 0)
  /\ (forall (this : OrbitCamera) (point : pc.Vec3),
         target (setTarget this point) = point).
Proof.
  split.
  - reflexivity.
  - intros this [px py pz]. reflexivity.
Qed.

(** C5 as stated fails: no camera and no options make the constructor
    start from the target [(1, 2, 3)]. *)
Lemma constructor_target_counterexample :
  exists point : pc.Vec3,
    point = pc.mkVec3 1 2 3
    /\ forall (host : Host) (camera : Entity)
         (options : OrbitCameraOptions.t),
         target (new_OrbitCamera camera options) <> point.
Proof.
  exists (pc.mkVec3 1 2 3). split; [reflexivity|].
  intros host camera options H.
  apply (f_equal pc.x) in H. simpl in H.
  apply (f_equal Prim2SF) in H. vm_compute in H. discriminate H.
Qed.

(** C6.  After [reset] the pitch is 0, the yaw is 0 and the distance is 5,
    whatever the state and the configuration were, the target is kept, and
    the camera is where the placement computation puts it for the new
    state.  In particular this holds after any construction and any
    sequence of operations. *)
Theorem reset_defaults {host : Host} :
  (forall this : OrbitCamera,
      pitch (reset this) = 0
      /\ yaw (reset this) = 0
      /\ distance (reset this) = 5
      /\ target (reset this) = target this
      /\ camera (reset this) = placement (reset this))
  /\ (forall (camera : Entity) (options : OrbitCameraOptions.t)
        (ops : list Operation),
         pitch (run camera options (ops ++ [Reset])) = 0
         /\ yaw (run camera options (ops ++ [Reset])) = 0
         /\ distance (run camera options (ops ++ [Reset])) = 5).
Proof.
  split.
  - intros this. repeat split.
  - intros camera options ops. unfold run. rewrite fold_left_app.
    repeat split.
Qed.

(** ** Zeros and finite numbers *)

Lemma is_finite_spec (a : number) :
  is_finite a
  = match Prim2SF a with
    | S754_zero _ | S754_finite _ _ _ => true
    | _ => false
    end.
Proof.
  unfold is_finite, is_infinity. rewrite is_nan_spec, eqb_spec, abs_spec.
  change (Prim2SF infinity) with (S754_infinity false).
  unfold SFeqb.
  destruct (Prim2SF a) as [s | s | | s m e]; reflexivity.
Qed.

Lemma SameValueZero_spec (a b : number) :
  Prim2SF a = Prim2SF b
  \/ (SFis_zero (Prim2SF a) = true /\ SFis_zero (Prim2SF b) = true) ->
  SameValueZero a b = true.
Proof.
  unfold SameValueZero. rewrite !is_nan_spec, eqb_spec. unfold SFeqb.
  intros [E | [Ha Hb]].
  - rewrite <- E. destruct (Prim2SF a) as [s | s | | s m e] eqn:Ea;
      try reflexivity.
    + destruct s; reflexivity.
    + rewrite SFcompare_refl by discriminate. reflexivity.
  - destruct (Prim2SF a); try discriminate.
    destruct (Prim2SF b); try discriminate. reflexivity.
Qed.

Lemma mul_zero_finite (a b : number) :
  SFis_zero (Prim2SF a) = true -> is_finite b = true ->
  SFis_zero (Prim2SF (a * b)) = true.
Proof.
  rewrite is_finite_spec, mul_spec.
  destruct (Prim2SF a); try discriminate.
  destruct (Prim2SF b); try discriminate; reflexivity.
Qed.

Lemma sub_zero_zero (a b : number) :
  SFis_zero (Prim2SF a) = true -> SFis_zero (Prim2SF b) = true ->
  SFis_zero (Prim2SF (a - b)) = true.
Proof.
  rewrite sub_spec.
  destruct (Prim2SF a) as [[|]| | |]; try discriminate;
  destruct (Prim2SF b) as [[|]| | |]; try discriminate; reflexivity.
Qed.

Lemma add_zero_same (a b : number) :
  SFis_zero (Prim2SF b) = true -> SameValueZero (a + b) a = true.
Proof.
  intros Hb. apply SameValueZero_spec. rewrite add_spec.
  destruct (Prim2SF b) as [sb| | |]; try discriminate.
  destruct (Prim2SF a) as [sa | sa | | sa ma ea]; simpl; auto.
  right. destruct sa, sb; auto.
Qed.

(** [t - u] and [t + (z - u)] for a zero [z] are the same value. *)
Lemma sub_via_zero (t u z : number) :
  SFis_zero (Prim2SF z) = true ->
  SameValueZero (t - u) (t + (z - u)) = true.
Proof.
  intros Hz. apply SameValueZero_spec.
  rewrite add_spec, !sub_spec.
  destruct (Prim2SF z) as [sz | | | ]; try discriminate.
  destruct (Prim2SF t) as [st | st | | st mt et],
    (Prim2SF u) as [su | su | | su mu eu]; simpl; auto;
    try (destruct st, su, sz; simpl; auto; fail);
    try (destruct st, su; simpl; auto; fail);
    try (destruct sz, su; simpl; auto; fail);
    try (destruct sz, st; simpl; auto; fail).
Qed.

(** ** Panning *)

(** C7.  A pan step moves the target by
    [right * dx * panScale - up * dy * panScale] with
    [panScale = panSpeed * distance], the basis [right], [up] being computed
    from the yaw and pitch of the state the step starts from.  The source
    leaves the term [right.y * dx * panScale] out of the second component,
    [right.y] being 0: for finite [dx] and [panScale] that is the same
    number.  At [yaw = 0], [pitch = 0], on a host whose sine and cosine are
    exact at [+0], the basis is [(1, 0, -0)], [(-0, 1, -0)] and a pan by
    finite amounts leaves the third coordinate of the target the same. *)
Theorem pan_step {host : Host} :
  (forall (this : OrbitCamera) (event : MouseEvent.t),
      isPanning this = true ->
      let deltaX := MouseEvent.clientX event - lastMouseX this in
      let deltaY := MouseEvent.clientY event - lastMouseY this in
      let panScale := panSpeed this * distance this in
      let right := rightVector (yaw this) in
      let up := panUpVector (yaw this) (pitch this) in
      target (on_mousemove this event)
      = pc.mkVec3
          (pc.x (target this)
           + (pc.x right * deltaX * panScale - pc.x up * deltaY * panScale))
          (pc.y (target this) - pc.y up * deltaY * panScale)
          (pc.z (target this)
           + (pc.z right * deltaX * panScale - pc.z up * deltaY * panScale))
      /\ (is_finite deltaX = true -> is_finite panScale = true ->
          SameValueZero
            (pc.y (target (on_mousemove this event)))
            (pc.y (target this)
             + (pc.y right * deltaX * panScale - pc.y up * deltaY * panScale))
          = true))
  /\ (Math_sin 0 = 0 -> Math_cos 0 = 1 ->
      rightVector 0 = pc.mkVec3 1 0 (-0)
      /\ panUpVector 0 0 = pc.mkVec3 (-0) 1 (-0)
      /\ forall (this : OrbitCamera) (event : MouseEvent.t),
          isPanning this = true -> yaw this = 0 -> pitch this = 0 ->
          is_finite (MouseEvent.clientX event - lastMouseX this) = true ->
          is_finite (MouseEvent.clientY event - lastMouseY this) = true ->
          is_finite (panSpeed this * distance this) = true ->
          SameValueZero
            (pc.z (target (on_mousemove this event)))
            (pc.z (target this))
          = true).
Proof.
  split.
  - intros this event Hpan deltaX deltaY panScale right up.
    unfold on_mousemove. rewrite Hpan. split; [reflexivity|].
    intros HdX Hps.
    change (pc.y (target (panDrag this event)))
      with (pc.y (target this) - pc.y up * deltaY * panScale).
    apply sub_via_zero.
    apply mul_zero_finite; [|exact Hps].
    apply mul_zero_finite; [|exact HdX].
    reflexivity.
  - intros Hsin Hcos. split; [|split].
    + unfold rightVector. change (0 * pc.DEG_TO_RAD) with 0.
      rewrite Hsin, Hcos. reflexivity.
    + unfold panUpVector. change (0 * pc.DEG_TO_RAD) with 0.
      rewrite Hsin, Hcos. reflexivity.
    + intros this event Hpan Hyaw Hpitch HdX HdY Hps.
      unfold on_mousemove. rewrite Hpan.
      change (pc.z (target (panDrag this event)))
        with (pc.z (target this)
              + (- Math_sin (yaw this * pc.DEG_TO_RAD)
                 * (MouseEvent.clientX event - lastMouseX this)
                 * (panSpeed this * distance this)
                 - - Math_cos (yaw this * pc.DEG_TO_RAD)
                   * Math_sin (pitch this * pc.DEG_TO_RAD)
                   * (MouseEvent.clientY event - lastMouseY this)
                   * (panSpeed this * distance this))).
      rewrite Hyaw, Hpitch. change (0 * pc.DEG_TO_RAD) with 0.
      rewrite Hsin, Hcos.
      apply add_zero_same. apply sub_zero_zero.
      * apply mul_zero_finite; [|exact Hps].
        apply mul_zero_finite; [|exact HdX].
        reflexivity.
      * apply mul_zero_finite; [|exact Hps].
        apply mul_zero_finite; [|exact HdY].
        reflexivity.
Qed.

(** A shift-drag from [(0, 0)] to [(30, -10)] on the front view. *)
Lemma pan_step_witness :
  SameValueZero
    (pc.z (target
             (on_mousemove
                (run Scenario.camera0 Scenario.frontOptions
                   [Mousedown Scenario.shiftPress])
                (Scenario.moveTo 30 (-10)))))
    0
  = true
  /\ target
       (run Scenario.camera0 Scenario.frontOptions
          [Mousedown Scenario.shiftPress;
           Mousemove (Scenario.moveTo 30 (-10))])
     = pc.mkVec3 1.5 0.5 0.
Proof.
  split; [|reflexivity].
  exact (proj2 (proj2 (proj2 (@pan_step SampleHost.host) eq_refl eq_refl))
           (run Scenario.camera0 Scenario.frontOptions
              [Mousedown Scenario.shiftPress])
           (Scenario.moveTo 30 (-10))
           eq_refl eq_refl eq_refl eq_refl eq_refl eq_refl).
Defined.

(** ** Pinching, idle moves and the frame of a zoom *)

(** C8.  A two-touch move with a recorded last pinch separation
    subtracts [(current - last) * 0.01] from the distance, where [current]
    is the Euclidean distance [sqrt (dx * dx + dy * dy)] between the two
    touch points and 0.01 is neither [wheelSpeed] nor [panSpeed]; it then
    clamps the result to [[minDistance, maxDistance]], which for ordered
    bounds and a result that is a number lies between them, and records
    [current] as the last separation.  The separation a two-touch
    ['touchstart'] records is the same Euclidean distance.  So a pinch
    from separation 100 to separation 150, along any direction, subtracts
    0.5. *)
Theorem pinch_step {host : Host}
  (this : OrbitCamera) (t0 t1 : Touch.t) (last : number) :
  lastTouchDistance this = Some last ->
  let dx := Touch.clientX t0 - Touch.clientX t1 in
  let dy := Touch.clientY t0 - Touch.clientY t1 in
  let current := Math_sqrt (dx * dx + dy * dy) in
  let this' := on_touchmove this (TouchEvent.mk [t0; t1]) in
  distance this'
  = clamp (minDistance this) (maxDistance this)
      (distance this - (current - last) * 0.01)
  /\ lastTouchDistance this' = Some current
  /\ ((minDistance this <=? maxDistance this) = true ->
      is_nan (distance this - (current - last) * 0.01) = false ->
      distance_in_range this' = true)
  /\ (last = 100 -> current = 150 ->
      distance this'
      = clamp (minDistance this) (maxDistance this) (distance this - 0.5))
  /\ (forall (before : OrbitCamera) (s0 s1 : Touch.t),
         Math_sqrt
           ((Touch.clientX s0 - Touch.clientX s1)
            * (Touch.clientX s0 - Touch.clientX s1)
            + (Touch.clientY s0 - Touch.clientY s1)
              * (Touch.clientY s0 - Touch.clientY s1)) = 100 ->
         current = 150 ->
         lastTouchDistance (on_touchstart before (TouchEvent.mk [s0; s1]))
         = Some 100
         /\ distance
              (on_touchmove
                 (on_touchstart before (TouchEvent.mk [s0; s1]))
                 (TouchEvent.mk [t0; t1]))
            = clamp (minDistance before) (maxDistance before)
                (distance before - 0.5)).
Proof.
  intros Hlast dx dy current this'.
  assert (Hd : distance this'
               = clamp (minDistance this) (maxDistance this)
                   (distance this - (current - last) * 0.01)).
  { unfold this', on_touchmove. simpl. rewrite Hlast. reflexivity. }
  split; [exact Hd|]. split; [|split; [|split]].
  - unfold this', on_touchmove. simpl. rewrite Hlast. reflexivity.
  - intros Hle Hnan. unfold distance_in_range.
    replace (minDistance this') with (minDistance this)
      by (unfold this', on_touchmove; simpl; rewrite Hlast; reflexivity).
    replace (maxDistance this') with (maxDistance this)
      by (unfold this', on_touchmove; simpl; rewrite Hlast; reflexivity).
    rewrite Hd.
    destruct (clamp_in_range _ _ _ Hle Hnan) as [-> ->]. reflexivity.
  - intros El Ec. rewrite Hd, El, Ec. reflexivity.
  - intros before s0 s1 Es Ec.
    assert (Hrec : lastTouchDistance
                     (on_touchstart before (TouchEvent.mk [s0; s1]))
                   = Some 100).
    { unfold on_touchstart, touchSeparation. simpl. rewrite Es.
      reflexivity. }
    split; [exact Hrec|].
    unfold on_touchmove.
    change (TouchEvent.touches (TouchEvent.mk [t0; t1])) with [t0; t1].
    cbv beta iota. rewrite Hrec.
    unfold pinch, touchSeparation. simpl.
    unfold current, dx, dy in Ec. rewrite Ec. reflexivity.
Qed.

(** Two fingers 100 pixels apart on a vertical line, then 150 pixels
    apart: the default distance 5 becomes 4.5.  The same for fingers at
    [(0, 0)] and [(60, 80)] that move to [(0, 0)] and [(90, 120)]. *)
Lemma pinch_step_witness :
  lastTouchDistance
    (on_touchstart
       (run Scenario.camera0 OrbitCameraOptions.empty [])
       (Scenario.verticalTouches 100))
  = Some 100
  /\ distance
       (on_touchmove
          (on_touchstart
             (run Scenario.camera0 OrbitCameraOptions.empty [])
             (Scenario.verticalTouches 100))
          (Scenario.verticalTouches 150))
     = 4.5
  /\ distance
       (on_touchmove
          (on_touchstart
             (run Scenario.camera0 OrbitCameraOptions.empty [])
             (TouchEvent.mk [Touch.mk 0 0; Touch.mk 60 80]))
          (TouchEvent.mk [Touch.mk 0 0; Touch.mk 90 120]))
     = 4.5.
Proof.
  split; [|split].
  - exact (proj1
             (proj2 (proj2 (proj2 (proj2
                (@pinch_step SampleHost.host
                   (on_touchstart
                      (run Scenario.camera0 OrbitCameraOptions.empty [])
                      (Scenario.verticalTouches 100))
                   (Touch.mk 0 0) (Touch.mk 0 150) 100 eq_refl))))
                (run Scenario.camera0 OrbitCameraOptions.empty [])
                (Touch.mk 0 0) (Touch.mk 0 100) eq_refl eq_refl)).
  - exact (proj2
             (proj2 (proj2 (proj2 (proj2
                (@pinch_step SampleHost.host
                   (on_touchstart
                      (run Scenario.camera0 OrbitCameraOptions.empty [])
                      (Scenario.verticalTouches 100))
                   (Touch.mk 0 0) (Touch.mk 0 150) 100 eq_refl))))
                (run Scenario.camera0 OrbitCameraOptions.empty [])
                (Touch.mk 0 0) (Touch.mk 0 100) eq_refl eq_refl)).
  - exact (proj2
             (proj2 (proj2 (proj2 (proj2
                (@pinch_step SampleHost.host
                   (on_touchstart
                      (run Scenario.camera0 OrbitCameraOptions.empty [])
                      (TouchEvent.mk [Touch.mk 0 0; Touch.mk 60 80]))
                   (Touch.mk 0 0) (Touch.mk 90 120) 100 eq_refl))))
                (run Scenario.camera0 OrbitCameraOptions.empty [])
                (Touch.mk 0 0) (Touch.mk 60 80) eq_refl eq_refl)).
Defined.

(** C9.  A mouse move while the controller is neither rotating nor panning
    changes nothing: the controller, its camera included, is the same
    afterwards.  The same holds for the move of a single touch while the
    controller is not rotating. *)
Theorem idle_move_noop {host : Host} :
  (forall (this : OrbitCamera) (event : MouseEvent.t),
      isPanning this = false -> isDragging this = false ->
      on_mousemove this event = this)
  /\ (forall (this : OrbitCamera) (t0 : Touch.t),
         isDragging this = false ->
         on_touchmove this (TouchEvent.mk [t0]) = this).
Proof.
  split.
  - intros this event Hpan Hdrag. unfold on_mousemove.
    rewrite Hpan, Hdrag. reflexivity.
  - intros this t0 Hdrag. unfold on_touchmove. simpl.
    rewrite Hdrag. reflexivity.
Qed.

(** A move with no button pressed, on the controller the viewer creates. *)
Lemma idle_move_noop_witness :
  run Scenario.camera0 Scenario.viewerOptions
    [Mousemove (Scenario.moveTo 300 200)]
  = run Scenario.camera0 Scenario.viewerOptions [].
Proof.
  exact (proj1 (@idle_move_noop SampleHost.host)
           (run Scenario.camera0 Scenario.viewerOptions [])
           (Scenario.moveTo 300 200) eq_refl eq_refl).
Defined.

(** C10.  A wheel event, a two-touch move of a pinch in progress and
    [setDistance] keep target, yaw and pitch; they change the distance
    (the pinch also the recorded separation) and place the camera anew, and
    leave every other field as it was. *)
Theorem zoom_frame {host : Host} :
  (forall (this : OrbitCamera) (event : WheelEvent.t),
      zoomed this (on_wheel this event)
      /\ lastTouchDistance (on_wheel this event) = lastTouchDistance this)
  /\ (forall (this : OrbitCamera) (t0 t1 : Touch.t) (last : number),
         lastTouchDistance this = Some last ->
         zoomed this (on_touchmove this (TouchEvent.mk [t0; t1])))
  /\ (forall (this : OrbitCamera) (value : number),
         zoomed this (setDistance this value)
         /\ lastTouchDistance (setDistance this value)
            = lastTouchDistance this).
Proof.
  split; [|split].
  - intros this event. unfold zoomed. repeat split.
  - intros this t0 t1 last Hlast. unfold zoomed, on_touchmove. simpl.
    rewrite Hlast. repeat split.
  - intros this value. unfold zoomed. repeat split.
Qed.

(** The pinch from 100 to 150 keeps the target, the yaw and the pitch of
    the viewer's controller. *)
Lemma zoom_frame_witness :
  zoomed
    (run Scenario.camera0 Scenario.viewerOptions
       [Touchstart (Scenario.twoTouches 100)])
    (run Scenario.camera0 Scenario.viewerOptions
       [Touchstart (Scenario.twoTouches 100);
        Touchmove (Scenario.twoTouches 150)]).
Proof.
  exact (proj1 (proj2 (@zoom_frame SampleHost.host))
           (run Scenario.camera0 Scenario.viewerOptions
              [Touchstart (Scenario.twoTouches 100)])
           (Touch.mk 0 0) (Touch.mk 150 0) 100 eq_refl).
Defined.

(** ** The scenarios of the specification, run on the sample host *)

Example Math_max_zeros :
  Math_max (-0) 0 = 0 /\ Math_max 0 (-0) = 0
  /\ Math_min 0 (-0) = (-0) /\ Math_min (-0) 0 = (-0)
  /\ Math_max 1 nan = nan /\ Math_min nan 1 = nan.
Proof. repeat split. Qed.

Example clamp_examples :
  clamp 1 100 250 = 100 /\ clamp 1 100 0.25 = 1 /\ clamp 1 100 42 = 42
  /\ clamp 10 (-10) 3 = 10.
Proof. repeat split. Qed.

(** A rotate-drag with [dx = 100], [dy = 0] and [mouseSpeed = 0.3] takes
    the yaw from 0 to -30. *)
Example drag_100_pixels :
  yaw (run Scenario.camera0 Scenario.frontOptions
         [Mousedown Scenario.press; Mousemove (Scenario.moveTo 100 0)])
  = (-30).
Proof. reflexivity. Qed.

(** A wheel event with [deltaY = 50] and [wheelSpeed = 0.1] takes the
    distance from 5 to 10; with [deltaY = 5000] it stops at [maxDistance]. *)
Example wheel_50 :
  distance (run Scenario.camera0 Scenario.frontOptions
              [Wheel (WheelEvent.mk 50)]) = 10
  /\ distance (run Scenario.camera0 Scenario.frontOptions
                 [Wheel (WheelEvent.mk 5000)]) = 100.
Proof. split; reflexivity. Qed.

(** Placing twice is placing once. *)
Example placement_idempotent {host : Host} (this : OrbitCamera) :
  updateCameraPosition (updateCameraPosition this)
  = updateCameraPosition this.
Proof. reflexivity. Qed.

(** ** More facts about binary64 arithmetic *)

(** Rounding never produces NaN. *)
Lemma shr_1_nonneg (mrs : shr_record) :
  (0 <= shr_m mrs)%Z -> (0 <= shr_m (shr_1 mrs))%Z.
Proof.
  destruct mrs as [m r s]. simpl.
  destruct m as [|p|p]; simpl; intros H; try lia;
    destruct p; simpl; lia.
Qed.

Lemma iter_shr_1_nonneg (p : positive) (mrs : shr_record) :
  (0 <= shr_m mrs)%Z -> (0 <= shr_m (iter_pos shr_1 p mrs))%Z.
Proof.
  revert mrs. induction p as [p IH | p IH | ]; intros mrs H; simpl.
  - apply IH, IH, shr_1_nonneg, H.
  - apply IH, IH, H.
  - apply shr_1_nonneg, H.
Qed.

Lemma shr_fexp_nonneg (pr em m e : Z) (l : location) :
  (0 <= m)%Z -> (0 <= shr_m (fst (shr_fexp pr em m e l)))%Z.
Proof.
  intros H. unfold shr_fexp, shr.
  assert (H0 : (0 <= shr_m (shr_record_of_loc m l))%Z).
  { destruct l as [|[ | | ]]; exact H. }
  destruct (_ - e)%Z; simpl; auto using iter_shr_1_nonneg.
Qed.

Lemma round_nearest_even_nonneg (m : Z) (l : location) :
  (0 <= m)%Z -> (0 <= round_nearest_even m l)%Z.
Proof.
  intros H. destruct l as [|[ | | ]]; simpl; try lia.
  destruct (Z.even m); lia.
Qed.

Lemma binary_round_aux_not_nan (pr em : Z) (sx : bool) (mx ex : Z)
  (lx : location) :
  (0 <= mx)%Z -> binary_round_aux pr em sx mx ex lx <> S754_nan.
Proof.
  intros H. unfold binary_round_aux.
  pose proof (shr_fexp_nonneg pr em mx ex lx H) as H1.
  destruct (shr_fexp pr em mx ex lx) as [mrs' e']. simpl in H1.
  pose proof (shr_fexp_nonneg pr em _ e' loc_Exact
                (round_nearest_even_nonneg _ (loc_of_shr_record mrs') H1))
    as H2.
  destruct (shr_fexp pr em _ e' loc_Exact) as [mrs'' e'']. simpl in H2.
  destruct (shr_m mrs'') as [|p|p]; try lia; try discriminate.
  destruct (_ <=? _)%Z; discriminate.
Qed.

Lemma binary_normalize_not_nan (pr em m e : Z) (szero : bool) :
  binary_normalize pr em m e szero <> S754_nan.
Proof.
  unfold binary_normalize, binary_round.
  destruct m as [|p|p]; try discriminate;
    destruct (shl_align _ _ _) as [mz ez];
    apply binary_round_aux_not_nan; lia.
Qed.

Lemma SFmul_not_nan (a b : spec_float) :
  SFis_finite a = true -> SFis_finite b = true ->
  SFmul prec emax a b <> S754_nan.
Proof.
  destruct a as [sa | sa | | sa ma ea], b as [sb | sb | | sb mb eb];
    simpl; try discriminate; intros _ _.
  apply binary_round_aux_not_nan. lia.
Qed.

Lemma SFmul_finite_nonzero_not_nan (a : spec_float) (s : bool) (m : positive) (e : Z) :
  a <> S754_nan -> SFmul prec emax a (S754_finite s m e) <> S754_nan.
Proof.
  destruct a as [sa | sa | | sa ma ea]; simpl; try discriminate; try congruence.
  intros _. apply binary_round_aux_not_nan. lia.
Qed.

Lemma SFadd_not_nan (a b : spec_float) :
  SFis_finite a = true -> b <> S754_nan -> SFadd prec emax a b <> S754_nan.
Proof.
  destruct a as [sa | sa | | sa ma ea], b as [sb | sb | | sb mb eb];
    simpl; try discriminate; try congruence; intros _ _.
  - destruct sa, sb; discriminate.
  - apply binary_normalize_not_nan.
Qed.

Lemma SFsub_not_nan (a b : spec_float) :
  SFis_finite a = true -> b <> S754_nan -> SFsub prec emax a b <> S754_nan.
Proof.
  destruct a as [sa | sa | | sa ma ea], b as [sb | sb | | sb mb eb];
    simpl; try discriminate; try congruence; intros _ _.
  - destruct sa, sb; discriminate.
  - apply binary_normalize_not_nan.
Qed.

Lemma is_nan_false_spec (a : number) :
  is_nan a = false <-> Prim2SF a <> S754_nan.
Proof.
  rewrite is_nan_spec. destruct (Prim2SF a); split; congruence.
Qed.

Lemma is_finite_SF (a : number) : is_finite a = SFis_finite (Prim2SF a).
Proof. rewrite is_finite_spec. reflexivity. Qed.

Lemma is_finite_not_nan (a : number) : is_finite a = true -> is_nan a = false.
Proof.
  rewrite is_finite_SF, is_nan_spec. destruct (Prim2SF a); simpl; congruence.
Qed.

Lemma mul_finite_not_nan (a b : number) :
  is_finite a = true -> is_finite b = true -> is_nan (a * b) = false.
Proof.
  rewrite !is_finite_SF, is_nan_false_spec, mul_spec.
  apply SFmul_not_nan.
Qed.

(** Scaling by the pinch factor keeps a number a number. *)
Lemma mul_hundredth_not_nan (a : number) :
  is_nan a = false -> is_nan (a * 0.01) = false.
Proof.
  rewrite !is_nan_false_spec, mul_spec.
  change (Prim2SF 0.01) with (S754_finite false 5764607523034235 (-59)).
  apply SFmul_finite_nonzero_not_nan.
Qed.

Lemma add_finite_not_nan (a b : number) :
  is_finite a = true -> is_nan b = false -> is_nan (a + b) = false.
Proof.
  rewrite is_finite_SF, !is_nan_false_spec, add_spec. apply SFadd_not_nan.
Qed.

Lemma sub_finite_not_nan (a b : number) :
  is_finite a = true -> is_nan b = false -> is_nan (a - b) = false.
Proof.
  rewrite is_finite_SF, !is_nan_false_spec, sub_spec. apply SFsub_not_nan.
Qed.

(** A value between two finite bounds is finite. *)
Lemma finite_between (lo hi v : number) :
  is_finite lo = true -> is_finite hi = true ->
  (lo <=? v) = true -> (v <=? hi) = true -> is_finite v = true.
Proof.
  rewrite !is_finite_SF, !leb_spec. unfold SFleb.
  destruct (Prim2SF lo) as [sl | sl | | sl ml el]; simpl; try discriminate;
    destruct (Prim2SF hi) as [sh | sh | | sh mh eh]; simpl; try discriminate;
    destruct (Prim2SF v) as [sv | sv | | sv mv ev]; simpl; try reflexivity;
    try discriminate; intros _ _;
    destruct sv; simpl; try discriminate;
    try (destruct sl; discriminate); try (destruct sh; discriminate).
Qed.

Lemma leb_antisym (a b : number) :
  (a <=? b) = true -> (b <=? a) = true -> (a =? b) = true.
Proof.
  rewrite !leb_spec, eqb_spec. unfold SFleb, SFeqb.
  rewrite (SFcompare_antisym (Prim2SF a) (Prim2SF b)).
  destruct (SFcompare (Prim2SF a) (Prim2SF b)) as [[ | | ] | ]; simpl;
    congruence.
Qed.

Lemma eqb_refl (a : number) : is_nan a = false -> (a =? a) = true.
Proof.
  intros H. apply leb_antisym; apply leb_refl; exact H.
Qed.

Lemma ltb_not_leb (a b : number) : (a <? b) = true -> (b <=? a) = false.
Proof.
  rewrite ltb_spec, leb_spec. unfold SFltb, SFleb.
  rewrite (SFcompare_antisym (Prim2SF a) (Prim2SF b)).
  destruct (SFcompare (Prim2SF a) (Prim2SF b)) as [[ | | ] | ]; simpl;
    congruence.
Qed.

Lemma ltb_not_nan (a b : number) :
  (a <? b) = true -> is_nan a = false /\ is_nan b = false.
Proof. intros H. apply leb_not_nan, ltb_leb, H. Qed.

Lemma add_nan_l (b : number) : nan + b = nan.
Proof.
  apply Prim2SF_inj. rewrite add_spec.
  change (Prim2SF nan) with S754_nan. reflexivity.
Qed.

Lemma sub_nan_l (b : number) : nan - b = nan.
Proof.
  apply Prim2SF_inj. rewrite sub_spec.
  change (Prim2SF nan) with S754_nan. reflexivity.
Qed.

(** ** Invariants of every reachable controller *)

Section Reachable.

Context {host : Host}.

(** Splits a goal about [step this op] into the branches its listener
    takes. *)
Ltac listener_branches :=
  unfold on_mousedown, on_mousemove, on_mouseup, on_touchstart,
    on_touchmove, rotateDrag;
  repeat match goal with
    | |- context [if ?c then _ else _] => destruct c eqn:?
    | |- context [match TouchEvent.touches ?e with _ => _ end] =>
        destruct (TouchEvent.touches e) as [|? [|? [|? ?]]] eqn:?
    | |- context [match lastTouchDistance ?t with _ => _ end] =>
        destruct (lastTouchDistance t) eqn:?
    end.

Lemma step_configuration (this : OrbitCamera) (op : Operation) :
  same_configuration this (step this op).
Proof.
  unfold same_configuration.
  destruct op; simpl; listener_branches; repeat split.
Qed.

Lemma fold_step_configuration (ops : list Operation) (this : OrbitCamera) :
  same_configuration this (fold_left step ops this).
Proof.
  revert this. induction ops as [|op ops IH]; intros this; simpl.
  - unfold same_configuration. repeat split.
  - destruct (IH (step this op)) as (H1 & H2 & H3 & H4 & H5 & H6 & H7).
    destruct (step_configuration this op)
      as (G1 & G2 & G3 & G4 & G5 & G6 & G7).
    unfold same_configuration.
    rewrite H1, H2, H3, H4, H5, H6, H7. repeat split; assumption.
Qed.

(** An operation that does not place the camera leaves the four numbers
    the placement is computed from as they were. *)
Lemma step_camera (this : OrbitCamera) (op : Operation) :
  camera this = placement this ->
  camera (step this op) = placement (step this op).
Proof.
  intros H.
  destruct op; simpl; listener_branches;
    first [reflexivity | exact H].
Qed.

Lemma step_pitch (this : OrbitCamera) (op : Operation) :
  isFinite (minPitch this) = true -> isFinite (maxPitch this) = true ->
  pitch (step this op) = pitch this
  \/ (exists v,
         pitch (step this op) = clamp (minPitch this) (maxPitch this) v)
  \/ (op = Reset /\ pitch (step this op) = 0).
Proof.
  intros Hlo Hhi.
  destruct op; simpl;
    unfold on_mousedown, on_mousemove, on_mouseup, on_touchstart,
      on_touchmove, rotateDrag; simpl; try rewrite Hlo, Hhi; simpl;
    repeat match goal with
      | |- context [if ?c then _ else _] => destruct c eqn:?
      | |- context [match TouchEvent.touches ?e with _ => _ end] =>
          destruct (TouchEvent.touches e) as [|? [|? [|? ?]]] eqn:?
      | |- context [match lastTouchDistance ?t with _ => _ end] =>
          destruct (lastTouchDistance t) eqn:?
      end;
    try (left; reflexivity);
    try (right; left; eexists; reflexivity);
    try (right; right; split; reflexivity).
Qed.

Lemma fold_step_keeps_pitch_range (ops : list Operation)
  (this : OrbitCamera) :
  isFinite (minPitch this) = true -> isFinite (maxPitch this) = true ->
  (minPitch this <=? maxPitch this) = true ->
  (In Reset ops ->
   (minPitch this <=? 0) = true /\ (0 <=? maxPitch this) = true) ->
  (is_nan (pitch this) = false -> pitch_in_range this = true) ->
  is_nan (pitch (fold_left step ops this)) = false ->
  pitch_in_range (fold_left step ops this) = true.
Proof.
  revert this.
  induction ops as [|op ops IH]; intros this Hlo Hhi Hle Hreset Hthis; simpl.
  - exact Hthis.
  - destruct (step_configuration this op) as (_ & _ & _ & _ & _ & Elo & Ehi).
    apply IH.
    + rewrite Elo. exact Hlo.
    + rewrite Ehi. exact Hhi.
    + rewrite Elo, Ehi. exact Hle.
    + rewrite Elo, Ehi. intros Hr. apply Hreset. right. exact Hr.
    + intros Hnan. unfold pitch_in_range. rewrite Elo, Ehi.
      destruct (step_pitch this op Hlo Hhi) as [E | [[v E] | [E1 E]]];
        rewrite E in *.
      * apply Hthis, Hnan.
      * apply clamp_not_nan in Hnan.
        destruct (clamp_in_range _ _ _ Hle Hnan) as [-> ->]. reflexivity.
      * destruct Hreset as [-> ->]; [left; exact E1|reflexivity].
Qed.

(** What a listener needs to keep the distance a number between the
    bounds: finite bounds in order, a finite wheel speed, and a finite
    recorded pinch separation. *)
Lemma step_keeps_range_finite (this : OrbitCamera) (op : Operation) :
  is_finite (minDistance this) = true ->
  is_finite (maxDistance this) = true ->
  is_finite (wheelSpeed this) = true ->
  (minDistance this <=? maxDistance this) = true ->
  (op = Reset ->
   (minDistance this <=? 5) = true /\ (5 <=? maxDistance this) = true) ->
  finite_input op = true ->
  distance_in_range this = true ->
  (forall l, lastTouchDistance this = Some l -> is_finite l = true) ->
  distance_in_range (step this op) = true
  /\ (forall l,
         lastTouchDistance (step this op) = Some l -> is_finite l = true).
Proof.
  intros Flo Fhi Fws Hle Hreset Hin Hrange Hlast.
  assert (Fd : is_finite (distance this) = true).
  { unfold distance_in_range in Hrange.
    apply andb_true_iff in Hrange. destruct Hrange as [H1 H2].
    exact (finite_between _ _ _ Flo Fhi H1 H2). }
  assert (Hclamp : forall v, is_nan v = false ->
            (minDistance this <=? clamp (minDistance this) (maxDistance this) v)
            && (clamp (minDistance this) (maxDistance this) v
                <=? maxDistance this) = true).
  { intros v Hv. destruct (clamp_in_range _ _ _ Hle Hv) as [-> ->].
    reflexivity. }
  unfold distance_in_range.
  destruct op as [e | e | e | | e | e | e | | t | d | ]; simpl in *;
    unfold on_mousedown, on_mousemove, on_mouseup, on_touchstart,
      on_touchmove, rotateDrag.
  - destruct (MouseEvent.button e =? 0)%Z; [|auto].
    destruct (MouseEvent.shiftKey e); auto.
  - destruct (isPanning this); [auto|].
    destruct (isDragging this); [|auto].
    simpl. destruct (isFinite _ && isFinite _); auto.
  - destruct (MouseEvent.button e =? 0)%Z; auto.
  - auto.
  - split; [|exact Hlast].
    apply Hclamp, add_finite_not_nan; [exact Fd|].
    apply mul_finite_not_nan; assumption.
  - destruct (TouchEvent.touches e) as [|t0 [|t1 [|t2 ts]]]; auto.
    split; [exact Hrange|]. simpl. intros l [= <-]. exact Hin.
  - destruct (TouchEvent.touches e) as [|t0 [|t1 [|t2 ts]]]; auto.
    + destruct (isDragging this); [|auto].
      simpl. destruct (isFinite _ && isFinite _); auto.
    + destruct (lastTouchDistance this) as [last|] eqn:El;
        [|split; [exact Hrange|rewrite El; exact Hlast]].
      split.
      * apply Hclamp, sub_finite_not_nan; [exact Fd|].
        apply mul_hundredth_not_nan, sub_finite_not_nan; [exact Hin|].
        apply is_finite_not_nan, Hlast. reflexivity.
      * simpl. intros l [= <-]. exact Hin.
  - split; [exact Hrange|]. simpl. discriminate.
  - auto.
  - split; [|exact Hlast]. apply Hclamp.
    apply negb_true_iff. exact Hin.
  - split; [|exact Hlast].
    destruct (Hreset eq_refl) as [-> ->]. reflexivity.
Qed.

Lemma fold_step_keeps_range_finite (ops : list Operation)
  (this : OrbitCamera) :
  is_finite (minDistance this) = true ->
  is_finite (maxDistance this) = true ->
  is_finite (wheelSpeed this) = true ->
  (minDistance this <=? maxDistance this) = true ->
  (In Reset ops ->
   (minDistance this <=? 5) = true /\ (5 <=? maxDistance this) = true) ->
  forallb finite_input ops = true ->
  distance_in_range this = true ->
  (forall l, lastTouchDistance this = Some l -> is_finite l = true) ->
  distance_in_range (fold_left step ops this) = true.
Proof.
  revert this.
  induction ops as [|op ops IH];
    intros this Flo Fhi Fws Hle Hreset Hin Hrange Hlast; simpl.
  - exact Hrange.
  - simpl in Hin. apply andb_true_iff in Hin. destruct Hin as [Hop Hops].
    destruct (step_configuration this op) as (_ & Ews & _ & Elo & Ehi & _).
    destruct (step_keeps_range_finite this op Flo Fhi Fws Hle) as [H1 H2];
      auto.
    { intros ->. apply Hreset. left. reflexivity. }
    apply IH; rewrite ?Elo, ?Ehi, ?Ews; try assumption.
    intros Hr. apply Hreset. right. exact Hr.
Qed.

End Reachable.

(** X1.  The camera never goes stale: in every state reached from the
    constructor by any operations, the camera entity is exactly where the
    placement computation puts it for the current target, distance, yaw and
    pitch.  Every operation that changes one of the four places the camera
    anew; the others change none of them. *)
Theorem camera_follows_state {host : Host}
  (camera0 : Entity) (options : OrbitCameraOptions.t)
  (ops : list Operation) :
  camera (run camera0 options ops) = placement (run camera0 options ops).
Proof.
  unfold run.
  assert (H : camera (new_OrbitCamera camera0 options)
              = placement (new_OrbitCamera camera0 options))
    by reflexivity.
  revert H. generalize (new_OrbitCamera camera0 options).
  induction ops as [|op ops IH]; intros this H; simpl.
  - exact H.
  - apply IH, step_camera, H.
Qed.

(** X2.  The configuration is fixed at construction: after any operations
    the three speeds and the four bounds are the values of the options, or
    the defaults 0.3, 0.1, 0.01, 1, 100, -Infinity and Infinity. *)
Theorem configuration_is_immutable {host : Host}
  (camera0 : Entity) (options : OrbitCameraOptions.t)
  (ops : list Operation) :
  mouseSpeed (run camera0 options ops)
  = nullish (OrbitCameraOptions.mouseSpeed options) 0.3
  /\ wheelSpeed (run camera0 options ops)
     = nullish (OrbitCameraOptions.wheelSpeed options) 0.1
  /\ panSpeed (run camera0 options ops)
     = nullish (OrbitCameraOptions.panSpeed options) 0.01
  /\ minDistance (run camera0 options ops)
     = nullish (OrbitCameraOptions.minDistance options) 1
  /\ maxDistance (run camera0 options ops)
     = nullish (OrbitCameraOptions.maxDistance options) 100
  /\ minPitch (run camera0 options ops)
     = nullish (OrbitCameraOptions.minPitch options) neg_infinity
  /\ maxPitch (run camera0 options ops)
     = nullish (OrbitCameraOptions.maxPitch options) infinity.
Proof.
  exact (fold_step_configuration ops (new_OrbitCamera camera0 options)).
Qed.

(** X3.  The pitch invariant over whole sessions: with finite pitch bounds
    that the initial pitch lies between, and 0 too in case [reset] is
    called, every reachable state whose pitch is a number satisfies
    [minPitch <= pitch <= maxPitch]. *)
Theorem pitch_invariant_reachable {host : Host}
  (camera0 : Entity) (options : OrbitCameraOptions.t)
  (ops : list Operation) :
  isFinite (nullish (OrbitCameraOptions.minPitch options) neg_infinity)
  = true ->
  isFinite (nullish (OrbitCameraOptions.maxPitch options) infinity) = true ->
  (nullish (OrbitCameraOptions.minPitch options) neg_infinity
   <=? nullish (OrbitCameraOptions.pitch options) 0) = true ->
  (nullish (OrbitCameraOptions.pitch options) 0
   <=? nullish (OrbitCameraOptions.maxPitch options) infinity) = true ->
  (In Reset ops ->
   (nullish (OrbitCameraOptions.minPitch options) neg_infinity <=? 0) = true
   /\ (0 <=? nullish (OrbitCameraOptions.maxPitch options) infinity) = true) ->
  is_nan (pitch (run camera0 options ops)) = false ->
  pitch_in_range (run camera0 options ops) = true.
Proof.
  intros Flo Fhi Hlo Hhi Hreset. unfold run.
  apply fold_step_keeps_pitch_range.
  - exact Flo.
  - exact Fhi.
  - exact (leb_trans _ _ _ Hlo Hhi).
  - exact Hreset.
  - intros _. unfold pitch_in_range. simpl. rewrite Hlo, Hhi. reflexivity.
Qed.

(** The bounds [-80] and [80] over the session that uses every
    operation. *)
Lemma pitch_invariant_reachable_witness :
  pitch_in_range
    (run Scenario.camera0 Scenario.boundedPitchOptions Scenario.session)
  = true.
Proof.
  apply pitch_invariant_reachable; try reflexivity.
  intros _. split; reflexivity.
Defined.

(** X4.  The distance invariant with no proviso about NaN: if the distance
    bounds and the wheel speed are finite, the initial distance lies
    between the bounds (and 5 does in case [reset] is called), and every
    operation brings finite input, then after any sequence of operations
    [minDistance <= distance <= maxDistance]. *)
Theorem distance_invariant_finite_inputs {host : Host}
  (camera0 : Entity) (options : OrbitCameraOptions.t)
  (ops : list Operation) :
  is_finite (nullish (OrbitCameraOptions.minDistance options) 1) = true ->
  is_finite (nullish (OrbitCameraOptions.maxDistance options) 100) = true ->
  is_finite (nullish (OrbitCameraOptions.wheelSpeed options) 0.1) = true ->
  (nullish (OrbitCameraOptions.minDistance options) 1
   <=? nullish (OrbitCameraOptions.distance options) 5) = true ->
  (nullish (OrbitCameraOptions.distance options) 5
   <=? nullish (OrbitCameraOptions.maxDistance options) 100) = true ->
  (In Reset ops ->
   (nullish (OrbitCameraOptions.minDistance options) 1 <=? 5) = true
   /\ (5 <=? nullish (OrbitCameraOptions.maxDistance options) 100) = true) ->
  forallb finite_input ops = true ->
  distance_in_range (run camera0 options ops) = true.
Proof.
  intros Flo Fhi Fws Hlo Hhi Hreset Hin. unfold run.
  apply fold_step_keeps_range_finite; try assumption.
  - exact (leb_trans _ _ _ Hlo Hhi).
  - unfold distance_in_range. simpl. rewrite Hlo, Hhi. reflexivity.
  - simpl. discriminate.
Qed.

(** The viewer's options and the session that uses every operation. *)
Lemma distance_invariant_finite_inputs_witness :
  forallb finite_input Scenario.session = true
  /\ distance_in_range
       (run Scenario.camera0 Scenario.viewerOptions Scenario.session)
     = true.
Proof.
  split; [reflexivity|].
  apply distance_invariant_finite_inputs; try reflexivity.
  intros _. split; reflexivity.
Defined.

(** ** Presses, releases and gestures *)

(** X5.  Only the primary button counts: pressing or releasing any other
    mouse button leaves the controller as it is; in particular releasing
    another button does not end a drag. *)
Theorem other_buttons_ignored {host : Host}
  (this : OrbitCamera) (event : MouseEvent.t) :
  MouseEvent.button event <> 0%Z ->
  on_mousedown this event = this /\ on_mouseup this event = this.
Proof.
  intros H. apply Z.eqb_neq in H.
  unfold on_mousedown, on_mouseup. rewrite H. split; reflexivity.
Qed.

(** A drag survives the release of the secondary button. *)
Lemma other_buttons_ignored_witness :
  on_mouseup
    (run Scenario.camera0 Scenario.viewerOptions [Mousedown Scenario.press])
    (MouseEvent.mk 2 false 5 5)
  = run Scenario.camera0 Scenario.viewerOptions [Mousedown Scenario.press].
Proof.
  refine (proj2 (@other_buttons_ignored SampleHost.host
                   (run Scenario.camera0 Scenario.viewerOptions
                      [Mousedown Scenario.press])
                   (MouseEvent.mk 2 false 5 5) _)).
  discriminate.
Defined.



(** X7.  What a drag move leaves alone.  While panning, a mouse move keeps
    yaw, pitch and distance, also when the rotate flag is set as well: the
    pan branch is tested first.  While rotating and not panning, it keeps
    target and distance.  Both record the pointer position of the event and
    keep the two flags. *)
Theorem drag_frame {host : Host} :
  (forall (this : OrbitCamera) (event : MouseEvent.t),
      isPanning this = true ->
      yaw (on_mousemove this event) = yaw this
      /\ pitch (on_mousemove this event) = pitch this
      /\ distance (on_mousemove this event) = distance this
      /\ isDragging (on_mousemove this event) = isDragging this
      /\ isPanning (on_mousemove this event) = true
      /\ lastMouseX (on_mousemove this event) = MouseEvent.clientX event
      /\ lastMouseY (on_mousemove this event) = MouseEvent.clientY event)
  /\ (forall (this : OrbitCamera) (event : MouseEvent.t),
         isPanning this = false -> isDragging this = true ->
         target (on_mousemove this event) = target this
         /\ distance (on_mousemove this event) = distance this
         /\ isDragging (on_mousemove this event) = true
         /\ isPanning (on_mousemove this event) = false
         /\ lastMouseX (on_mousemove this event) = MouseEvent.clientX event
         /\ lastMouseY (on_mousemove this event) = MouseEvent.clientY event).
Proof.
  split.
  - intros this event Hpan. unfold on_mousemove. rewrite Hpan.
    simpl. repeat split. exact Hpan.
  - intros this event Hpan Hdrag. unfold on_mousemove, rotateDrag.
    rewrite Hpan, Hdrag. simpl.
    destruct (isFinite _ && isFinite _); simpl; repeat split; assumption.
Qed.

(** A shift-press during a touch drag sets both flags; the move pans. *)
Lemma drag_frame_witness :
  isDragging
    (run Scenario.camera0 Scenario.viewerOptions
       [Touchstart (Scenario.oneTouch 0 0); Mousedown Scenario.shiftPress])
  = true
  /\ yaw (on_mousemove
            (run Scenario.camera0 Scenario.viewerOptions
               [Touchstart (Scenario.oneTouch 0 0);
                Mousedown Scenario.shiftPress])
            (Scenario.moveTo 30 (-10)))
     = yaw (run Scenario.camera0 Scenario.viewerOptions
              [Touchstart (Scenario.oneTouch 0 0);
               Mousedown Scenario.shiftPress]).
Proof.
  split; [reflexivity|].
  exact (proj1 (proj1 (@drag_frame SampleHost.host)
                  (run Scenario.camera0 Scenario.viewerOptions
                     [Touchstart (Scenario.oneTouch 0 0);
                      Mousedown Scenario.shiftPress])
                  (Scenario.moveTo 30 (-10)) eq_refl)).
Defined.

(** X8.  A one-finger touch is an unshifted press of the primary button at
    the same point; and for a controller that is not panning, the move of
    that finger does what the mouse move to the same point does after such
    a press, whatever the button and shift state of the move event. *)
Theorem touch_drag_is_mouse_drag {host : Host}
  (this : OrbitCamera) (t0 : Touch.t) :
  on_touchstart this (TouchEvent.mk [t0])
  = on_mousedown this
      (MouseEvent.mk 0 false (Touch.clientX t0) (Touch.clientY t0))
  /\ (isPanning this = false ->
      forall (t1 : Touch.t) (button : Z) (shiftKey : bool),
        on_touchmove (on_touchstart this (TouchEvent.mk [t0]))
          (TouchEvent.mk [t1])
        = on_mousemove
            (on_mousedown this
               (MouseEvent.mk 0 false (Touch.clientX t0) (Touch.clientY t0)))
            (MouseEvent.mk button shiftKey
               (Touch.clientX t1) (Touch.clientY t1))).
Proof.
  split; [reflexivity|].
  intros Hpan t1 button shiftKey.
  unfold on_touchmove, on_mousemove, on_touchstart, on_mousedown. simpl.
  rewrite Hpan. reflexivity.
Qed.

(** A finger dragged from [(10, 10)] to [(40, 50)] and the mouse dragged
    the same way leave the viewer's controller in the same state. *)
Lemma touch_drag_is_mouse_drag_witness :
  on_touchmove
    (on_touchstart (run Scenario.camera0 Scenario.viewerOptions [])
       (TouchEvent.mk [Touch.mk 10 10]))
    (TouchEvent.mk [Touch.mk 40 50])
  = on_mousemove
      (on_mousedown (run Scenario.camera0 Scenario.viewerOptions [])
         (MouseEvent.mk 0 false
            (Touch.clientX (Touch.mk 10 10)) (Touch.clientY (Touch.mk 10 10))))
      (MouseEvent.mk 0 false
         (Touch.clientX (Touch.mk 40 50)) (Touch.clientY (Touch.mk 40 50))).
Proof.
  exact (proj2 (@touch_drag_is_mouse_drag SampleHost.host
                  (run Scenario.camera0 Scenario.viewerOptions [])
                  (Touch.mk 10 10))
           eq_refl (Touch.mk 40 50) 0%Z false).
Defined.

(** Once no drag and no pinch is armed, operations other than
    ['touchstart'] and ['mousedown'] arm none. *)
Lemma quiet_step_keeps_unarmed {host : Host}
  (this : OrbitCamera) (op : Operation) :
  starts_gesture op = false ->
  isDragging this = false /\ lastTouchDistance this = None ->
  isDragging (step this op) = false
  /\ lastTouchDistance (step this op) = None.
Proof.
  intros Hop [Hdrag Hlast].
  destruct op as [e | e | e | | e | e | e | | t | d | ];
    try discriminate Hop; simpl;
    unfold on_mousemove, on_mouseup, on_touchmove.
  - rewrite Hdrag. destruct (isPanning this); simpl; auto.
  - destruct (MouseEvent.button e =? 0)%Z; simpl; auto.
  - simpl; auto.
  - simpl; auto.
  - rewrite Hdrag, Hlast.
    destruct (TouchEvent.touches e) as [|t0 [|t1 [|t2 ts]]]; auto.
  - simpl; auto.
  - simpl; auto.
  - simpl; auto.
  - simpl; auto.
Qed.

Lemma quiet_steps_keep_unarmed {host : Host}
  (ops : list Operation) (this : OrbitCamera) :
  forallb (fun op => negb (starts_gesture op)) ops = true ->
  isDragging this = false /\ lastTouchDistance this = None ->
  isDragging (fold_left step ops this) = false
  /\ lastTouchDistance (fold_left step ops this) = None.
Proof.
  revert this. induction ops as [|op ops IH]; intros this Hops H; simpl.
  - exact H.
  - simpl in Hops. apply andb_true_iff in Hops. destruct Hops as [Hop Hops].
    apply negb_true_iff in Hop.
    apply IH; [exact Hops|].
    apply quiet_step_keeps_unarmed; assumption.
Qed.

(** X9.  Lifting a finger cancels every touch gesture: after [touchend] a
    touch move of any number of fingers changes nothing, and this stays so
    through any further operations other than ['touchstart'] and
    ['mousedown'], which are the only ones that arm a drag or a pinch.
    And touch events with no touch or with three or more touches are
    always ignored. *)
Theorem touchend_cancels_gestures {host : Host} :
  (forall (this : OrbitCamera) (ops : list Operation)
      (event : TouchEvent.t),
      forallb (fun op => negb (starts_gesture op)) ops = true ->
      on_touchmove (fold_left step ops (on_touchend this)) event
      = fold_left step ops (on_touchend this))
  /\ (forall (this : OrbitCamera) (event : TouchEvent.t),
         length (TouchEvent.touches event) <> 1%nat ->
         length (TouchEvent.touches event) <> 2%nat ->
         on_touchstart this event = this /\ on_touchmove this event = this).
Proof.
  split.
  - intros this ops [touches] Hops.
    destruct (quiet_steps_keep_unarmed ops (on_touchend this) Hops)
      as [Hdrag Hlast]; [split; reflexivity|].
    unfold on_touchmove. simpl. rewrite Hdrag, Hlast.
    destruct touches as [|t0 [|t1 [|t2 ts]]]; reflexivity.
  - intros this [touches] H1 H2. unfold on_touchstart, on_touchmove.
    simpl in *.
    destruct touches as [|t0 [|t1 [|t2 ts]]]; simpl in *;
      try (split; reflexivity); congruence.
Qed.

(** A pinch interrupted by lifting one finger, then a mouse move, a wheel
    event and a release: the two-finger move that still arrives changes
    nothing; and neither does a three-finger start. *)
Lemma touchend_cancels_gestures_witness :
  on_touchmove
    (fold_left step
       [Mousemove (Scenario.moveTo 30 40); Wheel (WheelEvent.mk 50);
        Mouseup Scenario.press]
       (on_touchend
          (run Scenario.camera0 Scenario.viewerOptions
             [Touchstart (Scenario.twoTouches 100)])))
    (Scenario.twoTouches 150)
  = fold_left step
      [Mousemove (Scenario.moveTo 30 40); Wheel (WheelEvent.mk 50);
       Mouseup Scenario.press]
      (on_touchend
         (run Scenario.camera0 Scenario.viewerOptions
            [Touchstart (Scenario.twoTouches 100)]))
  /\ on_touchstart
       (run Scenario.camera0 Scenario.viewerOptions [])
       (TouchEvent.mk [Touch.mk 0 0; Touch.mk 1 1; Touch.mk 2 2])
     = run Scenario.camera0 Scenario.viewerOptions [].
Proof.
  split.
  - exact (proj1 (@touchend_cancels_gestures SampleHost.host)
             (run Scenario.camera0 Scenario.viewerOptions
                [Touchstart (Scenario.twoTouches 100)])
             [Mousemove (Scenario.moveTo 30 40); Wheel (WheelEvent.mk 50);
              Mouseup Scenario.press]
             (Scenario.twoTouches 150) eq_refl).
  - refine (proj1 (proj2 (@touchend_cancels_gestures SampleHost.host)
                     (run Scenario.camera0 Scenario.viewerOptions [])
                     (TouchEvent.mk [Touch.mk 0 0; Touch.mk 1 1; Touch.mk 2 2])
                     _ _)); discriminate.
Defined.

(** A press of the primary button after [touchend] arms the drag again:
    the one-finger move that follows rotates, from yaw 45 to yaw 33. *)
Example mousedown_arms_touch_drag :
  yaw (run Scenario.camera0 Scenario.viewerOptions
         [Touchend; Mousedown Scenario.press;
          Touchmove (Scenario.oneTouch 40 50)])
  = 33.
Proof. reflexivity. Qed.

(** X10.  Zooming with the wheel does not interfere with presses and
    releases: a wheel event commutes with [mousedown], [mouseup],
    [mouseleave], [touchstart] and [touchend], so a drag or pinch in
    progress goes on from where it was. *)
Theorem wheel_commutes_with_mode_changes {host : Host}
  (this : OrbitCamera) (wheel : WheelEvent.t) :
  (forall event : MouseEvent.t,
      on_wheel (on_mousedown this event) wheel
      = on_mousedown (on_wheel this wheel) event)
  /\ (forall event : MouseEvent.t,
         on_wheel (on_mouseup this event) wheel
         = on_mouseup (on_wheel this wheel) event)
  /\ on_wheel (on_mouseleave this) wheel = on_mouseleave (on_wheel this wheel)
  /\ (forall event : TouchEvent.t,
         on_wheel (on_touchstart this event) wheel
         = on_touchstart (on_wheel this wheel) event)
  /\ on_wheel (on_touchend this) wheel = on_touchend (on_wheel this wheel).
Proof.
  repeat split.
  - intros event. unfold on_mousedown.
    destruct (MouseEvent.button event =? 0)%Z; [|reflexivity].
    destruct (MouseEvent.shiftKey event); reflexivity.
  - intros event. unfold on_mouseup.
    destruct (MouseEvent.button event =? 0)%Z; reflexivity.
  - intros [touches]. unfold on_touchstart. simpl.
    destruct touches as [|t0 [|t1 [|t2 ts]]]; reflexivity.
Qed.

(** ** Setting the distance *)

Lemma clamp_inside (lo hi v : number) :
  (lo <=? v) = true -> (v <=? hi) = true -> (clamp lo hi v =? v) = true.
Proof.
  intros Hlo Hhi.
  destruct (leb_not_nan _ _ Hlo) as [Nlo Nv].
  destruct (leb_not_nan _ _ Hhi) as [_ Nhi].
  unfold clamp.
  destruct (Math_min_cases hi v Nhi Nv) as [[-> Hm] | [-> Hm]].
  - destruct (Math_max_cases lo hi Nlo Nhi) as [[-> Hx] | [-> Hx]].
    + apply leb_antisym; [exact Hlo|]. exact (leb_trans _ _ _ Hhi Hx).
    + apply leb_antisym; assumption.
  - destruct (Math_max_cases lo v Nlo Nv) as [[-> Hx] | [-> Hx]].
    + apply leb_antisym; assumption.
    + apply eqb_refl, Nv.
Qed.

Lemma clamp_above (lo hi v : number) :
  (lo <=? hi) = true -> (hi <? v) = true -> (clamp lo hi v =? hi) = true.
Proof.
  intros Hle Hlt.
  destruct (leb_not_nan _ _ Hle) as [Nlo Nhi].
  destruct (ltb_not_nan _ _ Hlt) as [_ Nv].
  unfold clamp.
  replace (Math_min hi v) with hi
    by (unfold Math_min; rewrite Nhi, Nv, Hlt; reflexivity).
  destruct (Math_max_cases lo hi Nlo Nhi) as [[-> Hx] | [-> Hx]].
  - apply leb_antisym; assumption.
  - apply eqb_refl, Nhi.
Qed.

Lemma clamp_below (lo hi v : number) :
  (lo <=? hi) = true -> (v <? lo) = true -> (clamp lo hi v =? lo) = true.
Proof.
  intros Hle Hlt.
  destruct (leb_not_nan _ _ Hle) as [Nlo Nhi].
  destruct (ltb_not_nan _ _ Hlt) as [Nv _].
  pose proof (ltb_not_leb _ _ Hlt) as Hn.
  unfold clamp.
  destruct (Math_min_cases hi v Nhi Nv) as [[-> Hm] | [-> Hm]].
  - rewrite (leb_trans _ _ _ Hle Hm) in Hn. discriminate.
  - destruct (Math_max_cases lo v Nlo Nv) as [[-> Hx] | [-> Hx]].
    + apply eqb_refl, Nlo.
    + rewrite Hx in Hn. discriminate.
Qed.

(** X11.  What [setDistance] stores, for bounds in order: a value between
    the bounds is stored as it is, a value above [maxDistance] becomes
    [maxDistance] and a value below [minDistance] becomes [minDistance]
    (equalities of numbers: of two equal zeros either may be stored). *)
Theorem setDistance_stores {host : Host}
  (this : OrbitCamera) (value : number) :
  (minDistance this <=? maxDistance this) = true ->
  ((minDistance this <=? value) = true ->
   (value <=? maxDistance this) = true ->
   (distance (setDistance this value) =? value) = true)
  /\ ((maxDistance this <? value) = true ->
      (distance (setDistance this value) =? maxDistance this) = true)
  /\ ((value <? minDistance this) = true ->
      (distance (setDistance this value) =? minDistance this) = true).
Proof.
  intros Hle. split; [|split].
  - intros Hlo Hhi. exact (clamp_inside _ _ _ Hlo Hhi).
  - intros Hlt. exact (clamp_above _ _ _ Hle Hlt).
  - intros Hlt. exact (clamp_below _ _ _ Hle Hlt).
Qed.

(** On the viewer's controller, [setDistance(250)] stores 100. *)
Lemma setDistance_stores_witness :
  (distance
     (setDistance (run Scenario.camera0 Scenario.viewerOptions []) 250)
   =? maxDistance (run Scenario.camera0 Scenario.viewerOptions []))
  = true.
Proof.
  exact (proj1 (proj2
           (@setDistance_stores SampleHost.host
              (run Scenario.camera0 Scenario.viewerOptions []) 250 eq_refl))
         eq_refl).
Defined.

(** X12.  The setters are absolute, not cumulative: of two [setDistance]
    calls, or two [setTarget] calls, in a row only the second shows, and
    [reset] wipes out an earlier [setDistance], wheel zoom or [reset]. *)
Theorem last_call_wins {host : Host} (this : OrbitCamera) :
  (forall a b : number,
      setDistance (setDistance this a) b = setDistance this b)
  /\ (forall p q : pc.Vec3, setTarget (setTarget this p) q = setTarget this q)
  /\ (forall value : number, reset (setDistance this value) = reset this)
  /\ (forall event : WheelEvent.t, reset (on_wheel this event) = reset this)
  /\ reset (reset this) = reset this.
Proof. repeat split. Qed.

(** X13.  A distance that is NaN stays NaN under wheel and pinch zooming:
    the sum, the difference and both [Math.max] and [Math.min] pass NaN on.
    Only [setDistance] and [reset] assign a distance that does not depend
    on the old one. *)
Theorem nan_distance_is_sticky {host : Host} (this : OrbitCamera) :
  is_nan (distance this) = true ->
  (forall event : WheelEvent.t,
      is_nan (distance (on_wheel this event)) = true)
  /\ (forall (t0 t1 : Touch.t) (last : number),
         lastTouchDistance this = Some last ->
         is_nan (distance (on_touchmove this (TouchEvent.mk [t0; t1])))
         = true).
Proof.
  intros H. apply is_nan_true in H. split.
  - intros event. unfold on_wheel. simpl. rewrite H, add_nan_l.
    rewrite Math_min_nan_r, Math_max_nan_r. reflexivity.
  - intros t0 t1 last Hlast. unfold on_touchmove. simpl. rewrite Hlast.
    simpl. rewrite H, sub_nan_l.
    rewrite Math_min_nan_r, Math_max_nan_r. reflexivity.
Qed.

(** After [setDistance(NaN)] the wheel cannot bring the distance back. *)
Lemma nan_distance_is_sticky_witness :
  is_nan
    (distance
       (on_wheel
          (run Scenario.camera0 OrbitCameraOptions.empty [SetDistance nan])
          (WheelEvent.mk 50)))
  = true.
Proof.
  exact (proj1 (@nan_distance_is_sticky SampleHost.host
                  (run Scenario.camera0 OrbitCameraOptions.empty
                     [SetDistance nan])
                  eq_refl)
           (WheelEvent.mk 50)).
Defined.

(** ** The viewer's check of a file name *)

Module ViewerFacts.

Import String Ascii Viewer.
Local Open Scope string_scope.

Lemma split_not_empty (sep : ascii) (s : string) : split sep s <> [].
Proof.
  destruct s as [|c rest]; simpl; [discriminate|].
  destruct (Ascii.eqb c sep); [discriminate|].
  destruct (split sep rest); discriminate.
Qed.

(** A string without a dot is a single piece. *)
Lemma split_no_dot (s : string) : hasDot s = false -> split "." s = [s].
Proof.
  induction s as [|c rest IH]; simpl; [reflexivity|].
  intros H. apply orb_false_iff in H. destruct H as [Hc Hrest].
  rewrite Hc, (IH Hrest). reflexivity.
Qed.

(** The pieces of [prefix.rest] are the pieces of [prefix], then those of
    [rest]. *)
Lemma split_app_dot (prefix rest : string) :
  split "." (prefix ++ String "." rest)
  = (split "." prefix ++ split "." rest)%list.
Proof.
  induction prefix as [|c prefix IH]; simpl; [reflexivity|].
  rewrite IH. destruct (Ascii.eqb c "."); [reflexivity|].
  pose proof (split_not_empty "." prefix) as Hne.
  destruct (split "." prefix); [congruence|reflexivity].
Qed.

Lemma pop_app_singleton {A : Type} (l : list A) (last : A) :
  pop (l ++ [last])%list = Some last.
Proof.
  induction l as [|x l IH]; simpl; [reflexivity|].
  rewrite IH. destruct (l ++ [last])%list eqn:E; [|reflexivity].
  destruct l; discriminate.
Qed.

(** Every string is free of dots or ends in a dot-free piece after its
    last dot. *)
Lemma last_dot (s : string) :
  hasDot s = false
  \/ exists prefix piece,
       s = prefix ++ String "." piece /\ hasDot piece = false.
Proof.
  induction s as [|c rest IH]; simpl; [left; reflexivity|].
  destruct IH as [H | (prefix & piece & -> & H)].
  - destruct (Ascii.eqb c ".") eqn:Ec.
    + right. exists "", rest. apply Ascii.eqb_eq in Ec. subst c.
      split; [reflexivity|exact H].
    + left. exact H.
  - right. exists (String c prefix), piece. split; [reflexivity|exact H].
Qed.

Lemma pop_split_last (prefix piece : string) :
  hasDot piece = false ->
  pop (split "." (prefix ++ String "." piece)) = Some piece.
Proof.
  intros H. rewrite split_app_dot, (split_no_dot _ H).
  apply pop_app_singleton.
Qed.


(** X14.  The extension the viewer reads is never [undefined]: it is the
    lower-cased text after the last dot of the file name, a text that holds
    no dot, and for a name without any dot it is the whole name. *)
Theorem extension_is_text_after_last_dot
  (toLowerCase : string -> string)
  (filename : string) :
  exists piece : string,
    extensionOf toLowerCase filename = Some (toLowerCase piece)
    /\ hasDot piece = false
    /\ ((hasDot filename = false /\ filename = piece)
        \/ exists prefix : string,
             filename = prefix ++ String "." piece).
Proof.
  unfold extensionOf.
  destruct (last_dot filename) as [H | (prefix & piece & -> & H)].
  - exists filename. rewrite (split_no_dot _ H). simpl.
    split; [reflexivity|]. split; [exact H|]. left. split; [exact H|reflexivity].
  - exists piece. rewrite (pop_split_last _ _ H).
    split; [reflexivity|]. split; [exact H|]. right. exists prefix.
    reflexivity.
Qed.

(** X15.  The check reads nothing but the text after the last dot:
    [prefix.piece] is refused or let through, with the same message, exactly
    as the bare name [piece] is, whatever the prefix. *)
Theorem validation_reads_last_piece_only
  (toLowerCase : string -> string)
  (prefix piece : string) :
  hasDot piece = false ->
  unsupportedFormat toLowerCase
    (prefix ++ String "." piece)
  = unsupportedFormat toLowerCase piece.
Proof.
  intros H. unfold unsupportedFormat, extensionOf.
  rewrite (pop_split_last _ _ H), (split_no_dot _ H).
  reflexivity.
Qed.

(** [archive.tar.PLY] is let through because the bare name [PLY] is. *)
Lemma validation_reads_last_piece_only_witness :
  unsupportedFormat lowerASCII "archive.tar.PLY" = None
  /\ unsupportedFormat lowerASCII "PLY" = None.
Proof.
  split; [|reflexivity].
  exact (eq_trans
           (validation_reads_last_piece_only lowerASCII
              "archive.tar" "PLY" eq_refl)
           eq_refl).
Defined.

(** X16.  A file name that ends in a dot, and the empty file name, have
    the empty extension and are refused with the message
    ["Unsupported file format: "], on every host whose [toLowerCase] keeps
    the empty string empty. *)
Theorem trailing_dot_is_refused
  (toLowerCase : string -> string)
  (prefix : string) :
  toLowerCase "" = "" ->
  unsupportedFormat toLowerCase (prefix ++ ".")
  = Some "Unsupported file format: "
  /\ unsupportedFormat toLowerCase ""
     = Some "Unsupported file format: ".
Proof.
  intros H. unfold unsupportedFormat, extensionOf. split.
  - rewrite (pop_split_last prefix "" eq_refl), H. reflexivity.
  - simpl. rewrite H. reflexivity.
Qed.

(** The name [scene.] under ASCII lower-casing. *)
Lemma trailing_dot_is_refused_witness :
  unsupportedFormat lowerASCII "scene."
  = Some "Unsupported file format: ".
Proof.
  exact (proj1 (trailing_dot_is_refused lowerASCII "scene" eq_refl)).
Defined.

(** The three formats in any case, and some names that are refused. *)
Example viewer_file_names :
  unsupportedFormat lowerASCII "garden.ply" = None
  /\ unsupportedFormat lowerASCII "garden.SOG" = None
  /\ unsupportedFormat lowerASCII "garden.Splat" = None
  /\ unsupportedFormat lowerASCII "splat" = None
  /\ unsupportedFormat lowerASCII "garden.ply.zip"
     = Some "Unsupported file format: zip"
  /\ unsupportedFormat lowerASCII "garden"
     = Some "Unsupported file format: garden"
  /\ unsupportedFormat lowerASCII ".ply" = None.
Proof. repeat split. Qed.

End ViewerFacts.

(** ** Events that bring no movement *)

Lemma eqb_leb (a b : number) :
  (a =? b) = true -> (a <=? b) = true /\ (b <=? a) = true.
Proof.
  rewrite eqb_spec, !leb_spec. unfold SFeqb, SFleb.
  rewrite (SFcompare_antisym (Prim2SF a) (Prim2SF b)).
  destruct (SFcompare (Prim2SF a) (Prim2SF b)) as [[ | | ] | ]; simpl;
    try discriminate; auto.
Qed.

Lemma eqb_trans (a b c : number) :
  (a =? b) = true -> (b =? c) = true -> (a =? c) = true.
Proof.
  intros H1 H2. apply eqb_leb in H1, H2.
  destruct H1 as [H1 H1'], H2 as [H2 H2'].
  apply leb_antisym; eapply leb_trans; eassumption.
Qed.

(** A finite number minus itself is a zero. *)
Lemma sub_self_zero (a : number) :
  is_finite a = true -> SFis_zero (Prim2SF (a - a)) = true.
Proof.
  rewrite is_finite_SF, sub_spec.
  destruct (Prim2SF a) as [s | s | | s m e]; simpl; try discriminate;
    intros _.
  - destruct s; reflexivity.
  - rewrite Z.sub_diag. reflexivity.
Qed.

(** Subtracting a zero from a number gives the same number. *)
Lemma sub_zero_eqb (a z : number) :
  SFis_zero (Prim2SF z) = true -> is_nan a = false -> (a - z =? a) = true.
Proof.
  rewrite is_nan_spec, eqb_spec, sub_spec. unfold SFeqb.
  destruct (Prim2SF z) as [sz | | | ]; try discriminate. intros _.
  destruct (Prim2SF a) as [sa | sa | | sa ma ea] eqn:Ea; simpl;
    try discriminate; intros _.
  - destruct sa, sz; reflexivity.
  - destruct sa; reflexivity.
  - rewrite Z.compare_refl, Pos.compare_cont_refl. destruct sa; reflexivity.
Qed.

(** X17.  Events that bring no movement change no orbit value.  A
    two-touch move whose separation is the recorded one leaves the distance
    of a controller within its bounds the same number; a rotating mouse
    move to the recorded pointer position leaves the yaw the same number,
    and the pitch too when it lies between its bounds or a bound is
    infinite. *)
Theorem still_events_change_nothing {host : Host} (this : OrbitCamera) :
  (forall t0 t1 : Touch.t,
      lastTouchDistance this = Some (touchSeparation t0 t1) ->
      is_finite (touchSeparation t0 t1) = true ->
      distance_in_range this = true ->
      (distance (on_touchmove this (TouchEvent.mk [t0; t1])) =? distance this)
      = true)
  /\ (forall event : MouseEvent.t,
         isPanning this = false -> isDragging this = true ->
         MouseEvent.clientX event = lastMouseX this ->
         MouseEvent.clientY event = lastMouseY this ->
         is_finite (lastMouseX this) = true ->
         is_finite (lastMouseY this) = true ->
         is_finite (mouseSpeed this) = true ->
         (is_nan (yaw this) = false ->
          (yaw (on_mousemove this event) =? yaw this) = true)
         /\ (pitch_in_range this = true
             \/ (is_nan (pitch this) = false
                 /\ (is_infinity (minPitch this) = true
                     \/ is_infinity (maxPitch this) = true)) ->
             (pitch (on_mousemove this event) =? pitch this) = true)).
Proof.
  split.
  - intros t0 t1 Hlast Hfin Hrange. unfold on_touchmove. simpl.
    rewrite Hlast. simpl. fold (clamp (minDistance this) (maxDistance this)
      (distance this
       - (touchSeparation t0 t1 - touchSeparation t0 t1) * 0.01)).
    unfold distance_in_range in Hrange. apply andb_true_iff in Hrange.
    destruct Hrange as [Hlo Hhi].
    destruct (leb_not_nan _ _ Hlo) as [_ Nd].
    assert (Hz : SFis_zero
                   (Prim2SF ((touchSeparation t0 t1 - touchSeparation t0 t1)
                             * 0.01)) = true).
    { apply mul_zero_finite; [|reflexivity]. apply sub_self_zero, Hfin. }
    pose proof (sub_zero_eqb _ _ Hz Nd) as He.
    destruct (eqb_leb _ _ He) as [H1 H2].
    eapply eqb_trans; [|exact He].
    apply clamp_inside; eapply leb_trans; eassumption.
  - intros event Hpan Hdrag EX EY FX FY Fms.
    unfold on_mousemove. rewrite Hpan, Hdrag, EX, EY.
    assert (HzX : SFis_zero
                    (Prim2SF ((lastMouseX this - lastMouseX this)
                              * mouseSpeed this)) = true).
    { apply mul_zero_finite; [|exact Fms]. apply sub_self_zero, FX. }
    assert (HzY : SFis_zero
                    (Prim2SF ((lastMouseY this - lastMouseY this)
                              * mouseSpeed this)) = true).
    { apply mul_zero_finite; [|exact Fms]. apply sub_self_zero, FY. }
    split.
    + intros Ny. unfold rotateDrag. simpl.
      destruct (isFinite _ && isFinite _); simpl;
        exact (sub_zero_eqb _ _ HzX Ny).
    + intros [Hrange | [Np [Hinf | Hinf]]]; unfold rotateDrag; simpl.
      * unfold pitch_in_range in Hrange. apply andb_true_iff in Hrange.
        destruct Hrange as [Hlo Hhi].
        destruct (leb_not_nan _ _ Hlo) as [_ Np].
        pose proof (sub_zero_eqb _ _ HzY Np) as He.
        destruct (eqb_leb _ _ He) as [H1 H2].
        destruct (isFinite _ && isFinite _); simpl; [|exact He].
        fold (clamp (minPitch this) (maxPitch this)
                (pitch this
                 - (lastMouseY this - lastMouseY this) * mouseSpeed this)).
        eapply eqb_trans; [|exact He].
        apply clamp_inside; eapply leb_trans; eassumption.
      * rewrite (is_infinity_not_finite _ Hinf). simpl.
        exact (sub_zero_eqb _ _ HzY Np).
      * rewrite (is_infinity_not_finite _ Hinf), andb_false_r. simpl.
        exact (sub_zero_eqb _ _ HzY Np).
Qed.

(** Two fingers resting 100 pixels apart on the viewer's controller. *)
Lemma still_events_change_nothing_witness :
  (distance
     (on_touchmove
        (run Scenario.camera0 Scenario.viewerOptions
           [Touchstart (Scenario.twoTouches 100)])
        (TouchEvent.mk [Touch.mk 0 0; Touch.mk 100 0]))
   =? distance
        (run Scenario.camera0 Scenario.viewerOptions
           [Touchstart (Scenario.twoTouches 100)]))
  = true.
Proof.
  exact (proj1 (@still_events_change_nothing SampleHost.host
                  (run Scenario.camera0 Scenario.viewerOptions
                     [Touchstart (Scenario.twoTouches 100)]))
           (Touch.mk 0 0) (Touch.mk 100 0) eq_refl eq_refl eq_refl).
Defined.
